(** * Attendance heuristics of the Fireflies attendance worker

    A shallow embedding of [determineAttendance], [isActive] and
    [scoreActive] from [src/worker.js] (the three worker variants of the
    repository carry the same text for these functions), together with
    the JavaScript primitives they rely on.

    - Numbers are IEEE 754 binary64 values: Rocq's primitive [float].
    - Strings are sequences of code units below 256 ([string]).
    - A field read from a JSON object is a [value]: [undefined] when the
      field is absent, or a JSON scalar.
    - [Map] keeps insertion order, so it is an association list.
    - The only operation of the resolver that can throw on such data is
      the method call [.trim()] on a value that is not a string; the
      resolver is therefore written in an error monad.

    The webhook handler [fetch], with [appendToSheet] and [json], is
    embedded over an explicit world: the reply of Fireflies, the reply
    of the Sheets endpoint and the clock are given, and a run of the
    handler yields the calls it made, in order, and the way it ended.
    [Number.prototype.toFixed] is computed on the mantissa and exponent
    of the number. [base64url], of the service-account variant, is
    embedded over strings of bytes, with [btoa] as RFC 4648 defines
    it. *)

From Stdlib Require Import Bool List String Ascii Arith Lia ZArith Relations.
From Stdlib Require Import Floats DecimalString.
Import ListNotations.

Set Warnings "-inexact-float".
Local Open Scope string_scope.
Local Open Scope list_scope.

(** ** Outcomes: a returned value or a thrown exception *)

Inductive exn :=
| TypeError.

Inductive result (A : Type) :=
| Ok (a : A)
| Throw (e : exn).

Arguments Ok {A} a.
Arguments Throw {A} e.

Definition bind {A B : Type} (r : result A) (k : A -> result B) : result B :=
  match r with
  | Ok a => k a
  | Throw e => Throw e
  end.

Notation "x <- r ;; k" := (bind r (fun x => k))
  (at level 61, r at next level, right associativity).

(** ** JavaScript values *)

Inductive value :=
| VUndefined
| VNull
| VBool (b : bool)
| VNum (x : float)
| VStr (s : string).

(** ToBoolean. *)
Definition truthy (v : value) : bool :=
  match v with
  | VUndefined | VNull => false
  | VBool b => b
  | VNum x => negb (is_zero x || is_nan x)
  | VStr s => negb (String.eqb s "")
  end.

(** [a || b] on values. *)
Definition js_or (a b : value) : value := if truthy a then a else b.

(** [a ?? b]. *)
Definition js_nullish (a b : value) : value :=
  match a with
  | VUndefined | VNull => b
  | _ => a
  end.

(** SameValueZero, the comparison behind [Set.prototype.has]. *)
Definition same_value_zero (a b : value) : bool :=
  match a, b with
  | VUndefined, VUndefined => true
  | VNull, VNull => true
  | VBool x, VBool y => Bool.eqb x y
  | VNum x, VNum y => (x =? y)%float || (is_nan x && is_nan y)
  | VStr s, VStr t => String.eqb s t
  | _, _ => false
  end.

(** ** Strings *)

(** White space and line terminators stripped by [String.prototype.trim],
    among the code units below 256: TAB, LF, VT, FF, CR, SP, NBSP. *)
Definition is_white_space (c : ascii) : bool :=
  let n := nat_of_ascii c in
  ((n =? 9) || (n =? 10) || (n =? 11) || (n =? 12) || (n =? 13)
   || (n =? 32) || (n =? 160))%nat.

Fixpoint trimStart (s : string) : string :=
  match s with
  | EmptyString => EmptyString
  | String c r => if is_white_space c then trimStart r else s
  end.

Fixpoint trimEnd (s : string) : string :=
  match s with
  | EmptyString => EmptyString
  | String c r =>
      match trimEnd r with
      | EmptyString => if is_white_space c then EmptyString else String c EmptyString
      | r' => String c r'
      end
  end.

Definition trim (s : string) : string := trimEnd (trimStart s).

(** Lower-case mapping of one code unit: A-Z, and the Latin-1 capitals
    U+00C0..U+00DE except the multiplication sign U+00D7. *)
Definition lower_unit (c : ascii) : ascii :=
  let n := nat_of_ascii c in
  if ((65 <=? n) && (n <=? 90))%nat then ascii_of_nat (n + 32)
  else if ((192 <=? n) && (n <=? 222) && negb (n =? 215))%nat then ascii_of_nat (n + 32)
  else c.

Fixpoint toLowerCase (s : string) : string :=
  match s with
  | EmptyString => EmptyString
  | String c r => String (lower_unit c) (toLowerCase r)
  end.

(** [Array.prototype.join]. *)
Fixpoint join (sep : string) (l : list string) : string :=
  match l with
  | [] => ""
  | [x] => x
  | x :: rest => (x ++ sep ++ join sep rest)%string
  end.

(** ** Numbers *)

(** [Math.min] and [Math.max] of two numbers: NaN is contagious and
    [-0] is below [+0]. *)
Definition Math_min (a b : float) : float :=
  if is_nan a || is_nan b then nan
  else if (a <? b)%float then a
  else if (b <? a)%float then b
  else if get_sign a then a else b.

Definition Math_max (a b : float) : float :=
  if is_nan a || is_nan b then nan
  else if (a <? b)%float then b
  else if (b <? a)%float then a
  else if get_sign a then b else a.

(** [x >= y] on numbers. *)
Definition num_ge (x y : float) : bool := (y <=? x)%float.

(** ** Data of the resolver *)

(** One element of the [speakers] argument: [{id, name}]. *)
Module Speaker.
Record t := mk { id : value; name : value }.
End Speaker.

(** One element of [speakerAnalytics], with the fields the resolver reads. *)
Module Analytics.
Record t := mk {
  name : value;
  user_email : value;
  word_count : value;
  duration_sec : value;
  questions : value;
  duration_pct : value
}.
End Analytics.

(** The [record] object built for each analytics entry. *)
Module Rec.
Record t := mk {
  display : value;
  word_count : value;
  duration_sec : value;
  questions : value;
  duration_pct : value
}.
End Rec.

(** The [thresholds] object; the caller builds each field with [Number(...)]. *)
Record Thresholds := mkThresholds {
  WORDS_MIN : float;
  DURATION_MIN_SEC : float;
  QUESTIONS_MIN : float
}.

(** [{ score, reason }], the result of [scoreActive]. *)
Module Scored.
Record t := mk { score : float; reason : string }.
End Scored.

(** One element of the returned [rows]. *)
Module OutRow.
Record t := mk {
  person : value;
  attended : bool;
  confidence : float;
  reason : string
}.
End OutRow.

(** [Map] from string keys to records, in insertion order. *)
Definition Map := list (string * Rec.t).

(** [Map.prototype.set]: an existing key keeps its position and takes
    the new value, a new key goes to the end. *)
Fixpoint map_set (k : string) (v : Rec.t) (m : Map) : Map :=
  match m with
  | [] => [(k, v)]
  | (k', v') :: m' =>
      if String.eqb k' k then (k', v) :: m' else (k', v') :: map_set k v m'
  end.

(** [Map.prototype.has]. *)
Definition map_has (k : string) (m : Map) : bool :=
  existsb (fun e => String.eqb (fst e) k) m.

(** [Set.prototype.has] on the [seen] set, kept as the list of added values. *)
Definition set_has (v : value) (seen : list value) : bool :=
  existsb (same_value_zero v) seen.

(** [norm]: [(s || "").trim().toLowerCase()]. The method call throws a
    TypeError when [s] is truthy and not a string. *)
Definition norm (s : value) : result string :=
  match js_or s (VStr "") with
  | VStr t => Ok (toLowerCase (trim t))
  | _ => Throw TypeError
  end.

(** ** Data of the webhook handler *)

(** The [env] bindings the handler reads: a string, or [undefined] when
    the binding is not set. *)
Module Env.
Record t := mk {
  WEBHOOK_SECRET : value;
  FIREFLIES_API_KEY : value;
  ACTIVE_WORDS_MIN : value;
  ACTIVE_DURATION_MIN_SEC : value;
  ACTIVE_QUESTIONS_MIN : value;
  GOOGLE_API_KEY : value;
  SHEET_ID : value;
  SHEET_TAB : value
}.
End Env.

(** [payload.data], with the two fields the handler reads. *)
Module PayloadData.
Record t := mk { transcript_id : value; transcriptId : value }.
End PayloadData.

(** The parsed webhook body, with the fields the handler reads; [data]
    is [None] when [payload.data] is [undefined] or [null]. *)
Module Payload.
Record t := mk {
  type : value;
  transcript_id : value;
  transcriptId : value;
  data : option PayloadData.t
}.
End Payload.

(** What [await request.json()] gives: a rejection, the value [null], or
    a value whose properties can be read. *)
Inductive body :=
| BadJson
| JsonNull
| JsonValue (payload : Payload.t).

(** The request: its method, [headers.get("x-fireflies-secret")] (a
    string, or [null] without the header) and its body. *)
Module Request.
Record t := mk { method : string; x_fireflies_secret : value; json : body }.
End Request.

(** The reply of the transcript query, in the shape the query of
    [fetchFireflies] asks for: [ff.data.transcript] with its fields, each
    level [None] when it is [undefined] or [null]. [participants] is
    [Some] when it is an array. *)
Module AnalyticsBlock.
Record t := mk { speakers : option (list Analytics.t) }.
End AnalyticsBlock.

Module Transcript.
Record t := mk {
  title : value;
  date : value;
  duration_seconds : value;
  transcript_url : value;
  participants : option (list value);
  speakers : option (list Speaker.t);
  analytics : option AnalyticsBlock.t
}.
End Transcript.

Module Data.
Record t := mk { transcript : option Transcript.t }.
End Data.

Module Reply.
Record t := mk { data : option Data.t }.
End Reply.

(** The [Response] a [fetch] call resolves to, as far as it is read;
    [text] is what [await res.text()] gives, and reading it is taken to
    succeed. *)
Module HttpResponse.
Record t := mk { ok : bool; status : float; text : string }.
End HttpResponse.

(** What the handler cannot compute: the reply of [fetchFireflies] to an
    API key and a transcript id ([None] when the call rejects, [Some
    None] for the JSON value [null]), the text of [new
    Date().toISOString()], and the reply of the Sheets endpoint to a
    POST of [{values}] to a URL ([None] when [fetch] rejects). *)
Module World.
Record t := mk {
  fireflies : value -> value -> option (option Reply.t);
  now : string;
  sheets : string -> list (list value) -> option HttpResponse.t
}.
End World.

(** The [Response] the handler builds. *)
Module Response.
Record t := mk { status : nat; body : string; content_type : option string }.
End Response.

(** How a request can end without a [Response]. *)
Inductive failure :=
| Uncaught (e : exn)
| ErrorThrown (message : string)
| FetchRejected.

Inductive ending :=
| Responded (r : Response.t)
| Failed (f : failure).

(** The calls a request makes to the outside. *)
Inductive call :=
| FetchedFireflies (apiKey transcriptId : value)
| PostedSheets (url : string) (values : list (list value)).

(** [a === b]. *)
Definition strict_equal (a b : value) : bool :=
  match a, b with
  | VUndefined, VUndefined => true
  | VNull, VNull => true
  | VBool x, VBool y => Bool.eqb x y
  | VNum x, VNum y => (x =? y)%float
  | VStr s, VStr t => String.eqb s t
  | _, _ => false
  end.

(** The double quote, as a string. *)
Definition dquote : string := String (ascii_of_nat 34) "".

(** [encodeURIComponent] on code units below 256: the unreserved
    characters [A-Z a-z 0-9 - _ . ! ~ * ' ( )] stay, every other unit is
    replaced by the percent-escapes of its UTF-8 bytes. *)
Definition is_unreserved (c : ascii) : bool :=
  let n := nat_of_ascii c in
  (((65 <=? n) && (n <=? 90)) || ((97 <=? n) && (n <=? 122))
   || ((48 <=? n) && (n <=? 57))
   || existsb (Nat.eqb n) [45; 95; 46; 33; 126; 42; 39; 40; 41])%nat.

Definition hex_digit (n : nat) : ascii :=
  if (n <? 10)%nat then ascii_of_nat (48 + n) else ascii_of_nat (55 + n).

Definition percent_escape (b : nat) : string :=
  String "%" (String (hex_digit (b / 16)) (String (hex_digit (b mod 16)) "")).

Definition utf8_of_unit (c : ascii) : list nat :=
  let n := nat_of_ascii c in
  if (n <? 128)%nat then [n] else [192 + n / 64; 128 + n mod 64]%nat.

Fixpoint encodeURIComponent (s : string) : string :=
  match s with
  | EmptyString => EmptyString
  | String c r =>
      ((if is_unreserved c then String c ""
        else String.concat "" (map percent_escape (utf8_of_unit c)))
       ++ encodeURIComponent r)%string
  end.

(** The digits of [Number.prototype.toFixed]: the decimal digits of [n],
    padded with zeros to [f + 1] digits, with a point before the last
    [f] when [f] is not 0. *)
Fixpoint zeros (k : nat) : string :=
  match k with
  | O => ""
  | S k' => String "0" (zeros k')
  end.

Definition fixed_digits (f : nat) (n : N) : string :=
  let m := NilZero.string_of_uint (N.to_uint n) in
  let m := (zeros (S f - String.length m) ++ m)%string in
  let k := String.length m in
  if (f =? 0)%nat then m
  else (substring 0 (k - f) m ++ "." ++ substring (k - f) f m)%string.

(** The integer [n] for which [n / 10^f] is closest to [m * 2^e], the
    larger one of two. *)
Definition nearest_scaled (f : nat) (m : positive) (e : Z) : N :=
  let scaled := (Zpos m * 10 ^ Z.of_nat f)%Z in
  Z.to_N (if (0 <=? e)%Z then scaled * 2 ^ e
          else (2 * scaled + 2 ^ (- e)) / 2 ^ (1 - e))%Z.

(** ** The base64url encoding of the service-account variant *)

(** The argument of [base64url]: a string, or a buffer of bytes. *)
Inductive encodable :=
| OfString (s : string)
| OfBuffer (buffer : list Byte.byte).

(** [new TextEncoder().encode(s)] on code units below 256. *)
Definition TextEncoder_encode (s : string) : list Byte.byte :=
  flat_map (fun c => map (fun n => byte_of_ascii (ascii_of_nat n)) (utf8_of_unit c))
    (list_ascii_of_string s).

(** A group of six bits, the first one the most significant. *)
Definition sextet : Type := bool * bool * bool * bool * bool * bool.

Definition sextet_index (s : sextet) : nat :=
  let '(b5, b4, b3, b2, b1, b0) := s in
  let bit (b : bool) (w : nat) := if b then w else 0%nat in
  (bit b5 32 + bit b4 16 + bit b3 8 + bit b2 4 + bit b1 2 + bit b0 1)%nat.

Definition base64_alphabet : string :=
  "ABCDEFGHIJKLMNOPQRSTUVWXYZabcdefghijklmnopqrstuvwxyz0123456789+/".

Definition sextet_char (s : sextet) : ascii :=
  match String.get (sextet_index s) base64_alphabet with
  | Some c => c
  | None => "="%char
  end.

(** [btoa]: every three code units (each below 256) give four
    characters; a rest of one or two is filled with zero bits and padded
    with [=]. *)
Fixpoint btoa (s : string) : string :=
  match s with
  | EmptyString => EmptyString
  | String (Ascii a0 a1 a2 a3 a4 a5 a6 a7) EmptyString =>
      String (sextet_char (a7, a6, a5, a4, a3, a2))
        (String (sextet_char (a1, a0, false, false, false, false)) "==")
  | String (Ascii a0 a1 a2 a3 a4 a5 a6 a7)
      (String (Ascii b0 b1 b2 b3 b4 b5 b6 b7) EmptyString) =>
      String (sextet_char (a7, a6, a5, a4, a3, a2))
        (String (sextet_char (a1, a0, b7, b6, b5, b4))
           (String (sextet_char (b3, b2, b1, b0, false, false)) "="))
  | String (Ascii a0 a1 a2 a3 a4 a5 a6 a7)
      (String (Ascii b0 b1 b2 b3 b4 b5 b6 b7)
         (String (Ascii c0 c1 c2 c3 c4 c5 c6 c7) rest)) =>
      String (sextet_char (a7, a6, a5, a4, a3, a2))
        (String (sextet_char (a1, a0, b7, b6, b5, b4))
           (String (sextet_char (b3, b2, b1, b0, c7, c6))
              (String (sextet_char (c5, c4, c3, c2, c1, c0)) (btoa rest))))
  end.

(** [s.replace(/c/g, d)] for a pattern of one character. *)
Fixpoint replace_all (c d : ascii) (s : string) : string :=
  match s with
  | EmptyString => EmptyString
  | String x rest => String (if Ascii.eqb x c then d else x) (replace_all c d rest)
  end.

(** [s.replace(/c+$/g, "")]: the run of [c] at the end is removed. *)
Fixpoint strip_trailing (c : ascii) (s : string) : string :=
  match s with
  | EmptyString => EmptyString
  | String x rest =>
      match strip_trailing c rest with
      | EmptyString => if Ascii.eqb x c then EmptyString else String x EmptyString
      | kept => String x kept
      end
  end.

(** The [bytes] of [base64url]. *)
Definition bytes_of (input : encodable) : list Byte.byte :=
  match input with
  | OfString s => TextEncoder_encode s
  | OfBuffer buffer => buffer
  end.

(** [base64url(input)]. The spread call [String.fromCharCode(...bytes)]
    is taken to return: engines bound the number of arguments of a call. *)
Definition base64url (input : encodable) : string :=
  let bytes := bytes_of input in
  let str := btoa (string_of_list_byte bytes) in
  strip_trailing "=" (replace_all "/" "_" (replace_all "+" "-" str)).

(** Reference: the characters of a base64url text. *)
Definition url_safe (c : ascii) : bool :=
  let n := nat_of_ascii c in
  (((65 <=? n) && (n <=? 90)) || ((97 <=? n) && (n <=? 122))
   || ((48 <=? n) && (n <=? 57)) || (n =? 45) || (n =? 95))%nat.

Fixpoint all_units (p : ascii -> bool) (s : string) : bool :=
  match s with
  | EmptyString => true
  | String c rest => p c && all_units p rest
  end.


(** The character of a sextet after the two replacements. *)
Definition url_of (x : ascii) : ascii :=
  let y := if Ascii.eqb x "+" then "-"%char else x in
  if Ascii.eqb y "/" then "_"%char else y.

Definition url_char (s : sextet) : ascii := url_of (sextet_char s).

(** The unpadded encoding, written out: four characters for every three
    code units, two for a rest of one, three for a rest of two. *)
Fixpoint url_encode (s : string) : string :=
  match s with
  | EmptyString => EmptyString
  | String (Ascii a0 a1 a2 a3 a4 a5 a6 a7) EmptyString =>
      String (url_char (a7, a6, a5, a4, a3, a2))
        (String (url_char (a1, a0, false, false, false, false)) EmptyString)
  | String (Ascii a0 a1 a2 a3 a4 a5 a6 a7)
      (String (Ascii b0 b1 b2 b3 b4 b5 b6 b7) EmptyString) =>
      String (url_char (a7, a6, a5, a4, a3, a2))
        (String (url_char (a1, a0, b7, b6, b5, b4))
           (String (url_char (b3, b2, b1, b0, false, false)) EmptyString))
  | String (Ascii a0 a1 a2 a3 a4 a5 a6 a7)
      (String (Ascii b0 b1 b2 b3 b4 b5 b6 b7)
         (String (Ascii c0 c1 c2 c3 c4 c5 c6 c7) rest)) =>
      String (url_char (a7, a6, a5, a4, a3, a2))
        (String (url_char (a1, a0, b7, b6, b5, b4))
           (String (url_char (b3, b2, b1, b0, c7, c6))
              (String (url_char (c5, c4, c3, c2, c1, c0)) (url_encode rest))))
  end.

(** The sextet a character of the encoding stands for. *)
Definition all_sextets : list sextet :=
  let bits := [false; true] in
  flat_map (fun b5 => flat_map (fun b4 => flat_map (fun b3 => flat_map (fun b2 =>
  flat_map (fun b1 => map (fun b0 => (b5, b4, b3, b2, b1, b0)) bits) bits) bits) bits)
  bits) bits.

Definition sextet_of (c : ascii) : sextet :=
  match find (fun s => Ascii.eqb (url_char s) c) all_sextets with
  | Some s => s
  | None => (false, false, false, false, false, false)
  end.

(** The code units an unpadded encoding stands for. *)
Fixpoint url_decode (s : string) : string :=
  match s with
  | String x0 (String x1 (String x2 (String x3 rest))) =>
      let '(a7, a6, a5, a4, a3, a2) := sextet_of x0 in
      let '(a1, a0, b7, b6, b5, b4) := sextet_of x1 in
      let '(b3, b2, b1, b0, c7, c6) := sextet_of x2 in
      let '(c5, c4, c3, c2, c1, c0) := sextet_of x3 in
      String (Ascii a0 a1 a2 a3 a4 a5 a6 a7)
        (String (Ascii b0 b1 b2 b3 b4 b5 b6 b7)
           (String (Ascii c0 c1 c2 c3 c4 c5 c6 c7) (url_decode rest)))
  | String x0 (String x1 (String x2 EmptyString)) =>
      let '(a7, a6, a5, a4, a3, a2) := sextet_of x0 in
      let '(a1, a0, b7, b6, b5, b4) := sextet_of x1 in
      let '(b3, b2, b1, b0, _, _) := sextet_of x2 in
      String (Ascii a0 a1 a2 a3 a4 a5 a6 a7)
        (String (Ascii b0 b1 b2 b3 b4 b5 b6 b7) EmptyString)
  | String x0 (String x1 EmptyString) =>
      let '(a7, a6, a5, a4, a3, a2) := sextet_of x0 in
      let '(a1, a0, _, _, _, _) := sextet_of x1 in
      String (Ascii a0 a1 a2 a3 a4 a5 a6 a7) EmptyString
  | _ => EmptyString
  end.

(** ** The caller's defaults and concrete conversions *)

(** The thresholds the handler passes when the environment sets none:
    [Number(env.ACTIVE_WORDS_MIN || 20)], [... || 60], [... || 1]. *)
Definition default_thresholds : Thresholds := mkThresholds 20 60 1.

(** Number::toString on NaN, the infinities, the zeros and the integral
    numbers of magnitude below 10^21, which print as plain decimal
    digits. Other numbers are outside the domain of this instance (it
    yields the empty string there); it serves to run the examples. *)
Definition integral_to_string (x : float) : string :=
  match Prim2SF x with
  | S754_nan => "NaN"
  | S754_infinity s => if s then "-Infinity" else "Infinity"
  | S754_zero _ => "0"
  | S754_finite s m e =>
      let z := if s then Zneg m else Zpos m in
      let n :=
        if (0 <=? e)%Z then Some (z * 2 ^ e)%Z
        else if (Z.rem z (2 ^ (- e)) =? 0)%Z then Some (Z.quot z (2 ^ (- e)))
        else None in
      match n with
      | Some n =>
          if (Z.abs n <? 10 ^ 21)%Z then NilZero.string_of_int (Z.to_int n) else ""
      | None => ""
      end
  end.

(** StringToNumber of a string that is no numeric literal. The one
    example with a string in a numeric field holds "abc", which is none;
    elsewhere this conversion is never consulted. *)
Definition not_a_numeric_literal (s : string) : float := nan.

(** ** Example inputs *)

(** An analytics entry with the given fields and no [duration_pct]. *)
Definition speaker_entry (name user_email word_count duration_sec questions : value)
  : Analytics.t :=
  Analytics.mk name user_email word_count duration_sec questions VUndefined.

(** A record whose three measures are each just under the default
    thresholds. *)
Definition just_under : Rec.t :=
  Rec.mk (VStr "Ann") (VNum 19) (VNum 59) (VNum 0) VNull.

(** A speaker without name and e-mail, well above every threshold. *)
Definition anonymous_speaker : Analytics.t :=
  speaker_entry VUndefined VUndefined (VNum 50) (VNum 200) (VNum 3).

(** A record well above every default threshold. *)
Definition talkative : Rec.t :=
  Rec.mk (VStr "Alice") (VNum 50) (VNum 200) (VNum 3) VNull.

(** A silent record, and thresholds whose word minimum is set to 0. *)
Definition silent : Rec.t :=
  Rec.mk (VStr "Ann") (VNum 0) VNull (VNum 0) VNull.

Definition no_word_minimum : Thresholds := mkThresholds 0 60 1.

(** The analytics entry that yields the silent record. *)
Definition silent_speaker : Analytics.t :=
  speaker_entry (VStr "Ann") VUndefined (VNum 0) VNull (VNum 0).

(** Three entries, the third spelled like the first up to case. *)
Definition alice_bob_alice : list Analytics.t :=
  [ speaker_entry (VStr "alice") VUndefined (VNum 5) VNull VNull;
    speaker_entry (VStr "bob") VUndefined (VNum 50) VNull VNull;
    speaker_entry (VStr "Alice") VUndefined (VNum 100) VNull VNull ].

Definition alice_bob_alice_rows : list OutRow.t :=
  [ OutRow.mk (VStr "Alice") true 0.4 "100 words";
    OutRow.mk (VStr "bob") true 0.4 "50 words" ].

(** A well-typed input with missing fields. *)
Definition cara : Analytics.t :=
  speaker_entry (VStr "Cara") VNull VUndefined VNull (VNum 2).

Definition dan : Analytics.t :=
  speaker_entry VUndefined (VStr "dan@co.com") (VNum nan) VUndefined VNull.

Definition sparse_analytics : list Analytics.t := [cara; dan].

Definition sparse_participants : list value :=
  [ VStr "Dan@co.com"; VNull; VStr "eve@co.com" ].

(** An entry whose word count is malformed: a string that is no number. *)
Definition mumbler : Analytics.t :=
  speaker_entry (VStr "Bea") VUndefined (VStr "abc") VNull VNull.

(** An environment with the secrets and the sheet set, and neither
    thresholds nor a tab name. *)
Definition example_env : Env.t :=
  Env.mk (VStr "s3cret") (VStr "ffkey") VUndefined VUndefined VUndefined
    (VStr "gkey") (VStr "sheet/1") VUndefined.

(** The webhook of a finished transcript, its id under [data]. *)
Definition example_payload : Payload.t :=
  Payload.mk (VStr "Transcription completed") VUndefined VUndefined
    (Some (PayloadData.mk (VStr "T1") VUndefined)).

Definition example_request : Request.t :=
  Request.mk "POST" (VStr "s3cret") (JsonValue example_payload).

(** The same webhook without the secret header. *)
Definition unsigned_request : Request.t :=
  Request.mk "POST" VNull (JsonValue example_payload).

(** A meeting with the sparse analytics and participants, and one
    without analytics. *)
Definition analysed_meeting : Transcript.t :=
  Transcript.mk (VStr "Weekly") VNull (VNum 1800) VUndefined
    (Some sparse_participants) None
    (Some (AnalyticsBlock.mk (Some sparse_analytics))).

Definition plain_meeting : Transcript.t :=
  Transcript.mk (VStr "Weekly") VNull VUndefined VUndefined
    (Some [VStr "a@co.com"; VStr "b@co.com"]) None None.

(** Two replies of the Sheets endpoint. *)
Definition accepted : HttpResponse.t := HttpResponse.mk true 200 "{}".

Definition refused : HttpResponse.t := HttpResponse.mk false 403 "PERMISSION_DENIED".

(** A world in which Fireflies returns the transcript [t] and the Sheets
    endpoint replies [res]. *)
Definition example_world (t : Transcript.t) (res : HttpResponse.t) : World.t :=
  World.mk (fun _ _ => Some (Some (Reply.mk (Some (Data.mk (Some t))))))
    "2025-01-01T00:00:00.000Z"
    (fun _ _ => Some res).

Section Heuristics.

(** Number::toString and StringToNumber are left abstract: every result
    below holds for any pair of conversions. *)
Variable number_to_string : float -> string.
Variable string_to_number : string -> float.

Set Default Proof Using "Type".

(** ToNumber. *)
Definition to_number (v : value) : float :=
  match v with
  | VUndefined => nan
  | VNull => 0%float
  | VBool b => if b then 1%float else 0%float
  | VNum x => x
  | VStr s => string_to_number s
  end.

(** ToString, as applied by a template literal. *)
Definition to_string (v : value) : string :=
  match v with
  | VUndefined => "undefined"
  | VNull => "null"
  | VBool b => if b then "true" else "false"
  | VNum x => number_to_string x
  | VStr s => s
  end.

(** [v >= t] for a value against a number: both sides go through ToNumber. *)
Definition js_ge (v : value) (t : float) : bool := num_ge (to_number v) t.

Definition isActive (rec : Rec.t) (th : Thresholds) : bool :=
  let w := js_or (Rec.word_count rec) (VNum 0) in
  let d := js_or (Rec.duration_sec rec) (VNum 0) in
  let q := js_or (Rec.questions rec) (VNum 0) in
  js_ge w (WORDS_MIN th) || js_ge d (DURATION_MIN_SEC th) || js_ge q (QUESTIONS_MIN th).

Definition scoreActive (rec : Rec.t) (th : Thresholds) : Scored.t :=
  let w := js_or (Rec.word_count rec) (VNum 0) in
  let d := js_or (Rec.duration_sec rec) (VNum 0) in
  let q := js_or (Rec.questions rec) (VNum 0) in
  let score := 0%float in
  let score := (score + Math_min (to_number w / (WORDS_MIN th * 2)) 1 * 0.4)%float in
  let score := (score + Math_min (to_number d / (DURATION_MIN_SEC th * 2)) 1 * 0.4)%float in
  let score := (score + Math_min (to_number q / (QUESTIONS_MIN th * 2)) 1 * 0.2)%float in
  let score := Math_max 0.1 (Math_min 1 score) in
  let reasons := [] in
  let reasons := if truthy w then reasons ++ [(to_string w ++ " words")%string] else reasons in
  let reasons := if truthy d then reasons ++ [(to_string d ++ "s spoken")%string] else reasons in
  let reasons := if truthy q then reasons ++ [(to_string q ++ " questions")%string] else reasons in
  Scored.mk score
    (if negb (List.length reasons =? 0)%nat then join "; " reasons else "No detectable speech").

(** The object built for one analytics entry. *)
Definition mk_record (s : Analytics.t) : Rec.t :=
  Rec.mk
    (js_or (js_or (Analytics.name s) (Analytics.user_email s)) (VStr "Unknown"))
    (js_nullish (Analytics.word_count s) (VNum 0))
    (js_nullish (Analytics.duration_sec s) VNull)
    (js_nullish (Analytics.questions s) (VNum 0))
    (js_nullish (Analytics.duration_pct s) VNull).

(** Body of the first loop: index one analytics entry. *)
Definition index_speaker (analyticsByKey : Map) (s : Analytics.t) : result Map :=
  keyName <- norm (Analytics.name s) ;;
  keyEmail <- norm (Analytics.user_email s) ;;
  let record := mk_record s in
  let analyticsByKey :=
    if negb (String.eqb keyName "") then map_set ("n:" ++ keyName)%string record analyticsByKey
    else analyticsByKey in
  let analyticsByKey :=
    if negb (String.eqb keyEmail "") then map_set ("e:" ++ keyEmail)%string record analyticsByKey
    else analyticsByKey in
  Ok analyticsByKey.

Fixpoint build_index (analyticsByKey : Map) (speakerAnalytics : list Analytics.t)
  : result Map :=
  match speakerAnalytics with
  | [] => Ok analyticsByKey
  | s :: rest =>
      analyticsByKey <- index_speaker analyticsByKey s ;;
      build_index analyticsByKey rest
  end.

(** The row pushed for an analytics record. *)
Definition analytics_row (th : Thresholds) (rec : Rec.t) : OutRow.t :=
  let attended := isActive rec th in
  let sr := scoreActive rec th in
  OutRow.mk (Rec.display rec) attended (Scored.score sr) (Scored.reason sr).

(** Second loop, over [analyticsByKey.entries()]: the state is
    [(rows, seen)]. *)
Fixpoint emit_analytics (th : Thresholds) (entries : Map)
  (rows : list OutRow.t) (seen : list value) : list OutRow.t * list value :=
  match entries with
  | [] => (rows, seen)
  | (_, rec) :: rest =>
      if set_has (Rec.display rec) seen then emit_analytics th rest rows seen
      else emit_analytics th rest (rows ++ [analytics_row th rec]) (seen ++ [Rec.display rec])
  end.

(** The row pushed for a participant without analytics. *)
Definition participant_row (email : value) : OutRow.t :=
  OutRow.mk email false 0.5
    "Present in participant list but no speech/activity detected".

(** Third loop, over [participants]. *)
Fixpoint add_participants (analyticsByKey : Map) (participants : list value)
  (rows : list OutRow.t) : result (list OutRow.t) :=
  match participants with
  | [] => Ok rows
  | email :: rest =>
      k <- norm email ;;
      let keyEmail := ("e:" ++ k)%string in
      if map_has keyEmail analyticsByKey then add_participants analyticsByKey rest rows
      else add_participants analyticsByKey rest (rows ++ [participant_row email])
  end.

(** The row pushed by the last block. *)
Definition fallback_row (email : value) : OutRow.t :=
  OutRow.mk email false 0.4 "Analytics unavailable; cannot confirm activity".

(** The condition of the last block: [!rows.length &&
    Array.isArray(participants) && participants.length].
    [participants] is an array here. *)
Definition no_rows_yet (participants : list value) (rows : list OutRow.t) : bool :=
  (List.length rows =? 0)%nat && negb (List.length participants =? 0)%nat.

(** Last block. *)
Definition fallback (participants : list value) (rows : list OutRow.t) : list OutRow.t :=
  if no_rows_yet participants rows
  then fold_left (fun rows email => rows ++ [fallback_row email]) participants rows
  else rows.

(** [determineAttendance({speakers, speakerAnalytics, participants,
    thresholds})]. The arrays are those the caller passes, so
    [participants || []] is [participants]. *)
Definition determineAttendance (speakers : list Speaker.t)
  (speakerAnalytics : list Analytics.t) (participants : list value)
  (thresholds : Thresholds) : result (list OutRow.t) :=
  analyticsByKey <- build_index [] speakerAnalytics ;;
  let '(rows, seen) := emit_analytics thresholds analyticsByKey [] [] in
  rows <- add_participants analyticsByKey participants rows ;;
  Ok (fallback participants rows).

(** ** The webhook handler *)

(** [Number.prototype.toFixed(fractionDigits)]: a number that is not
    finite prints as Number::toString does, one of magnitude 10^21 or
    more as the sign and Number::toString of its magnitude, any other as
    the sign and the digits of the nearest multiple of
    10^-fractionDigits. *)
Definition toFixed (fractionDigits : nat) (x : float) : string :=
  match Prim2SF x with
  | S754_nan => "NaN"
  | S754_infinity s => if s then "-Infinity" else "Infinity"
  | S754_zero _ => fixed_digits fractionDigits 0
  | S754_finite s m e =>
      let sign := if s then "-" else "" in
      let large :=
        if (0 <=? e)%Z then (10 ^ 21 <=? Zpos m * 2 ^ e)%Z
        else (10 ^ 21 * 2 ^ (- e) <=? Zpos m)%Z in
      if large then (sign ++ number_to_string (abs x))%string
      else (sign ++ fixed_digits fractionDigits (nearest_scaled fractionDigits m e))%string
  end.

(** [Number(v || fallback)], as the handler builds each threshold. *)
Definition threshold (v : value) (fallback : float) : float :=
  to_number (js_or v (VNum fallback)).

Definition thresholds_of_env (env : Env.t) : Thresholds :=
  mkThresholds
    (threshold (Env.ACTIVE_WORDS_MIN env) 20)
    (threshold (Env.ACTIVE_DURATION_MIN_SEC env) 60)
    (threshold (Env.ACTIVE_QUESTIONS_MIN env) 1).

(** The array of cells the handler builds for one person. *)
Definition sheet_row (whenISO : string) (meetingID title dateISO durationSec
  transcriptUrl : value) (p : OutRow.t) : list value :=
  [ VStr whenISO;
    meetingID;
    OutRow.person p;
    VStr (if OutRow.attended p then "TRUE" else "FALSE");
    VStr (toFixed 2 (OutRow.confidence p));
    VStr (OutRow.reason p);
    title;
    dateISO;
    js_nullish durationSec (VStr "");
    transcriptUrl ].

(** The [url] of [appendToSheet]. *)
Definition sheets_url (apiKey spreadsheetId : value) (rangeA1 : string) : string :=
  ("https://sheets.googleapis.com/v4/spreadsheets/"
   ++ encodeURIComponent (to_string spreadsheetId)
   ++ "/values/"
   ++ encodeURIComponent rangeA1
   ++ ":append?valueInputOption=USER_ENTERED&key="
   ++ to_string apiKey)%string.

(** The message of the [Error] thrown on a reply that is not ok. *)
Definition append_failed (res : HttpResponse.t) : string :=
  ("Sheets append failed: " ++ number_to_string (HttpResponse.status res)
   ++ " " ++ HttpResponse.text res)%string.

(** [appendToSheet({ apiKey, spreadsheetId, rangeA1, values })]: the
    call it makes, and the failure it ends with, if any. *)
Definition appendToSheet (world : World.t) (apiKey spreadsheetId : value)
  (rangeA1 : string) (values : list (list value)) : call * option failure :=
  let url := sheets_url apiKey spreadsheetId rangeA1 in
  (PostedSheets url values,
   match World.sheets world url values with
   | None => Some FetchRejected
   | Some res =>
       if negb (HttpResponse.ok res) then Some (ErrorThrown (append_failed res))
       else None
   end).

(** [new Response(text, { status })]. *)
Definition plain (status : nat) (text : string) : Response.t :=
  Response.mk status text None.

(** [json({ ok: true })]. *)
Definition json_ok : Response.t :=
  Response.mk 200 ("{" ++ dquote ++ "ok" ++ dquote ++ ":true}")%string
    (Some "application/json").

(** [payload.transcript_id || payload.transcriptId ||
    payload?.data?.transcript_id || payload?.data?.transcriptId]. *)
Definition transcriptId_of (payload : Payload.t) : value :=
  let nested (field : PayloadData.t -> value) :=
    match Payload.data payload with
    | Some d => field d
    | None => VUndefined
    end in
  js_or
    (js_or
       (js_or (Payload.transcript_id payload) (Payload.transcriptId payload))
       (nested PayloadData.transcript_id))
    (nested PayloadData.transcriptId).

(** [ff?.data?.transcript], [None] when it is falsy. *)
Definition transcript_of (ff : option Reply.t) : option Transcript.t :=
  match ff with
  | Some r =>
      match Reply.data r with
      | Some d => Data.transcript d
      | None => None
      end
  | None => None
  end.

(** [t.analytics?.speakers || []]. *)
Definition speakerAnalytics_of (t : Transcript.t) : list Analytics.t :=
  match Transcript.analytics t with
  | Some a =>
      match AnalyticsBlock.speakers a with
      | Some l => l
      | None => []
      end
  | None => []
  end.

(** [t.speakers || []]. *)
Definition speakers_of (t : Transcript.t) : list Speaker.t :=
  match Transcript.speakers t with
  | Some l => l
  | None => []
  end.

(** The [rangeA1] the handler passes: [`${env.SHEET_TAB ||
    "Attendance"}!A:J`]. *)
Definition rangeA1_of (env : Env.t) : string :=
  (to_string (js_or (Env.SHEET_TAB env) (VStr "Attendance")) ++ "!A:J")%string.

(** [Array.isArray(t.participants) ? t.participants : []]. *)
Definition participants_of (t : Transcript.t) : list value :=
  match Transcript.participants t with
  | Some l => l
  | None => []
  end.

(** The [values] the handler builds from a transcript and the rows of
    the resolver. *)
Definition sheet_values (world : World.t) (transcriptId : value) (t : Transcript.t)
  (byPerson : list OutRow.t) : list (list value) :=
  let title := js_or (Transcript.title t) (VStr "") in
  let dateISO := js_or (Transcript.date t) (VStr "") in
  let durationSec := js_nullish (Transcript.duration_seconds t) VNull in
  let transcriptUrl := js_or (Transcript.transcript_url t) (VStr "") in
  let whenISO := World.now world in
  let meetingID := transcriptId in
  map (sheet_row whenISO meetingID title dateISO durationSec transcriptUrl) byPerson.

(** The handler [fetch(request, env)]: the calls it makes, in order, and
    how it ends. *)
Definition fetch (world : World.t) (request : Request.t) (env : Env.t)
  : list call * ending :=
  if negb (String.eqb (Request.method request) "POST")
  then ([], Responded (plain 200 "OK"))
  else if negb (strict_equal (Request.x_fireflies_secret request) (Env.WEBHOOK_SECRET env))
  then ([], Responded (plain 401 "Unauthorized"))
  else
    match Request.json request with
    | BadJson => ([], Responded (plain 400 "Bad JSON"))
    | JsonNull => ([], Failed (Uncaught TypeError))
    | JsonValue payload =>
        if strict_equal (Payload.type payload) (VStr "ping")
        then ([], Responded json_ok)
        else
          let transcriptId := transcriptId_of payload in
          if negb (truthy transcriptId)
          then ([], Responded (plain 200 "No transcript_id in webhook"))
          else
            let asked := [FetchedFireflies (Env.FIREFLIES_API_KEY env) transcriptId] in
            match World.fireflies world (Env.FIREFLIES_API_KEY env) transcriptId with
            | None => (asked, Failed FetchRejected)
            | Some ff =>
                match transcript_of ff with
                | None => (asked, Responded (plain 200 "No transcript yet"))
                | Some t =>
                    let participants := participants_of t in
                    let speakers := speakers_of t in
                    let speakerAnalytics := speakerAnalytics_of t in
                    match determineAttendance speakers speakerAnalytics participants
                            (thresholds_of_env env) with
                    | Throw e => (asked, Failed (Uncaught e))
                    | Ok byPerson =>
                        let values := sheet_values world transcriptId t byPerson in
                        if negb (List.length values =? 0)%nat
                        then
                          let '(posted, failed) :=
                            appendToSheet world (Env.GOOGLE_API_KEY env) (Env.SHEET_ID env)
                              (rangeA1_of env) values in
                          match failed with
                          | Some f => (asked ++ [posted], Failed f)
                          | None => (asked ++ [posted], Responded (plain 200 "OK"))
                          end
                        else (asked, Responded (plain 200 "OK"))
                    end
                end
            end
    end.

(** ** The resolver as a machine

    The same code, one loop iteration per step, over the mutable objects
    of the function: the index, the [rows] array and the [seen] set. *)

Record state := mkState {
  st_index : Map;
  st_rows : list OutRow.t;
  st_seen : list value
}.

(** Where the execution stands, with what is left of the running loop. *)
Inductive control :=
| Indexing (todo : list Analytics.t)
| Emitting (todo : Map)
| Adding (todo : list value)
| Checking
| Filling (todo : list value)
| Returned
| Thrown (e : exn).

Definition config : Type := control * state.

Inductive step (th : Thresholds) (participants : list value) : config -> config -> Prop :=
| step_index (s : Analytics.t) (rest : list Analytics.t) (st : state) (m : Map) :
    index_speaker (st_index st) s = Ok m ->
    step th participants (Indexing (s :: rest), st)
      (Indexing rest, mkState m (st_rows st) (st_seen st))
| step_index_throw (s : Analytics.t) (rest : list Analytics.t) (st : state) (e : exn) :
    index_speaker (st_index st) s = Throw e ->
    step th participants (Indexing (s :: rest), st) (Thrown e, st)
| step_index_done (st : state) :
    step th participants (Indexing [], st) (Emitting (st_index st), st)
| step_emit_seen (k : string) (rec : Rec.t) (rest : Map) (st : state) :
    set_has (Rec.display rec) (st_seen st) = true ->
    step th participants (Emitting ((k, rec) :: rest), st) (Emitting rest, st)
| step_emit_push (k : string) (rec : Rec.t) (rest : Map) (st : state) :
    set_has (Rec.display rec) (st_seen st) = false ->
    step th participants (Emitting ((k, rec) :: rest), st)
      (Emitting rest,
       mkState (st_index st) (st_rows st ++ [analytics_row th rec])
         (st_seen st ++ [Rec.display rec]))
| step_emit_done (st : state) :
    step th participants (Emitting [], st) (Adding participants, st)
| step_add_throw (email : value) (rest : list value) (st : state) (e : exn) :
    norm email = Throw e ->
    step th participants (Adding (email :: rest), st) (Thrown e, st)
| step_add_skip (email : value) (rest : list value) (st : state) (k : string) :
    norm email = Ok k ->
    map_has ("e:" ++ k)%string (st_index st) = true ->
    step th participants (Adding (email :: rest), st) (Adding rest, st)
| step_add_push (email : value) (rest : list value) (st : state) (k : string) :
    norm email = Ok k ->
    map_has ("e:" ++ k)%string (st_index st) = false ->
    step th participants (Adding (email :: rest), st)
      (Adding rest,
       mkState (st_index st) (st_rows st ++ [participant_row email]) (st_seen st))
| step_add_done (st : state) :
    step th participants (Adding [], st) (Checking, st)
| step_check_fill (st : state) :
    no_rows_yet participants (st_rows st) = true ->
    step th participants (Checking, st) (Filling participants, st)
| step_check_return (st : state) :
    no_rows_yet participants (st_rows st) = false ->
    step th participants (Checking, st) (Returned, st)
| step_fill (email : value) (rest : list value) (st : state) :
    step th participants (Filling (email :: rest), st)
      (Filling rest,
       mkState (st_index st) (st_rows st ++ [fallback_row email]) (st_seen st))
| step_fill_done (st : state) :
    step th participants (Filling [], st) (Returned, st).

(** The result of a configuration that has come to its end. *)
Definition outcome (c : config) : option (result (list OutRow.t)) :=
  match fst c with
  | Returned => Some (Ok (st_rows (snd c)))
  | Thrown e => Some (Throw e)
  | _ => None
  end.

(** An invocation: the objects are created empty and the first loop
    starts on [speakerAnalytics]. *)
Definition invoke (speakerAnalytics : list Analytics.t) : config :=
  (Indexing speakerAnalytics, mkState [] [] []).

(** Any number of steps. *)
Definition runs (th : Thresholds) (participants : list value) : config -> config -> Prop :=
  clos_refl_trans_1n config (step th participants).

(** An invocation on the given arguments ends with result [r]. *)
Definition resolves (speakerAnalytics : list Analytics.t) (participants : list value)
  (th : Thresholds) (r : result (list OutRow.t)) : Prop :=
  exists c,
    runs th participants (invoke speakerAnalytics) c /\ outcome c = Some r.

(** ** Reference descriptions used in the statements *)

(** The records the second loop emits from a sequence of records: the
    first record of every display value that is not in [seen] yet. *)
Fixpoint distinct_displays (seen : list value) (recs : list Rec.t) : list Rec.t :=
  match recs with
  | [] => []
  | r :: rest =>
      if set_has (Rec.display r) seen then distinct_displays seen rest
      else r :: distinct_displays (seen ++ [Rec.display r]) rest
  end.

(** The participants the third loop emits: those whose normalized e-mail
    key is not a key of the index. *)
Definition unmatched (analyticsByKey : Map) (participants : list value) : list value :=
  filter
    (fun email =>
       match norm email with
       | Ok k => negb (map_has ("e:" ++ k)%string analyticsByKey)
       | Throw _ => false
       end)
    participants.

(** A numeric field as the analytics data model has it: a number, or
    missing ([undefined] or [null]). *)
Definition numeric_field (v : value) : Prop :=
  match v with
  | VUndefined | VNull | VNum _ => True
  | _ => False
  end.

(** The measured value of a numeric field, a missing one (absent, null
    or NaN) counting as 0. *)
Definition measured (v : value) : float :=
  match v with
  | VNum x => if is_nan x then 0%float else x
  | _ => 0%float
  end.

(** The last code unit of a string. *)
Fixpoint last_unit (s : string) : option ascii :=
  match s with
  | EmptyString => None
  | String c r =>
      match last_unit r with
      | Some x => Some x
      | None => Some c
      end
  end.

(** A row as the last block pushes it, whatever its person:
    [attended] false, [confidence] 0.4 and the reason of that block. *)
Definition is_fallback_row (r : OutRow.t) : bool :=
  negb (OutRow.attended r)
  && (OutRow.confidence r =? 0.4)%float
  && String.eqb (OutRow.reason r) "Analytics unavailable; cannot confirm activity".

(** A string field as the analytics data model has it: a string, or
    missing. *)
Definition string_field (v : value) : Prop :=
  match v with
  | VUndefined | VNull | VStr _ => True
  | _ => False
  end.

(** Well-typed input: names, e-mails and participants are strings or
    missing. Numeric fields may hold any value. *)
Definition well_typed (an : list Analytics.t) (participants : list value) : Prop :=
  Forall (fun s => string_field (Analytics.name s)
                   /\ string_field (Analytics.user_email s)) an
  /\ Forall string_field participants.

(** The neutral default of a numeric field: 0 in place of a value that
    is missing (absent, null or NaN) or malformed and falsy (the empty
    string, [false]). A malformed value that is truthy (a string that is
    not empty, [true]) stays. *)
Definition zero_if_falsy (v : value) : value :=
  match v with
  | VUndefined | VNull => VNum 0
  | VNum x => if is_nan x then VNum 0 else v
  | VStr s => if String.eqb s "" then VNum 0 else v
  | VBool b => if b then v else VNum 0
  end.

Definition with_defaults (s : Analytics.t) : Analytics.t :=
  Analytics.mk (Analytics.name s) (Analytics.user_email s)
    (zero_if_falsy (Analytics.word_count s))
    (zero_if_falsy (Analytics.duration_sec s))
    (zero_if_falsy (Analytics.questions s))
    (Analytics.duration_pct s).

(** The substitution as first stated: 0 in place of every numeric field
    that is missing or malformed, that is, of everything but a number
    other than NaN. *)
Definition zero_unless_number (v : value) : value :=
  match v with
  | VNum x => if is_nan x then VNum 0 else v
  | _ => VNum 0
  end.

Definition with_zero_unless_number (s : Analytics.t) : Analytics.t :=
  Analytics.mk (Analytics.name s) (Analytics.user_email s)
    (zero_unless_number (Analytics.word_count s))
    (zero_unless_number (Analytics.duration_sec s))
    (zero_unless_number (Analytics.questions s))
    (Analytics.duration_pct s).

(** The resolver returns on an input, with the rows it returns when
    every missing or malformed numeric field holds 0 instead. *)
Definition malformed_fields_default_to_zero (an : list Analytics.t)
  (participants : list value) (th : Thresholds) : Prop :=
  exists rows,
    determineAttendance [] an participants th = Ok rows
    /\ determineAttendance [] (map with_zero_unless_number an) participants th = Ok rows.

(** Two indexes with the same keys in the same order whose records
    yield the same rows. *)
Definition same_rows (th : Thresholds) (m1 m2 : Map) : Prop :=
  Forall2
    (fun e1 e2 => fst e1 = fst e2
                  /\ analytics_row th (snd e1) = analytics_row th (snd e2))
    m1 m2.

(** The keys one analytics entry writes to the index, in the order of
    the two [set] calls. *)
Definition entry_keys (s : Analytics.t) : list string :=
  match norm (Analytics.name s), norm (Analytics.user_email s) with
  | Ok keyName, Ok keyEmail =>
      (if negb (String.eqb keyName "") then [("n:" ++ keyName)%string] else [])
      ++ (if negb (String.eqb keyEmail "") then [("e:" ++ keyEmail)%string] else [])
  | _, _ => []
  end.

(** All the writes of the first loop: each key with the record written. *)
Definition writes (an : list Analytics.t) : Map :=
  flat_map (fun s => map (fun k => (k, mk_record s)) (entry_keys s)) an.

Definition set_all (ws m : Map) : Map :=
  fold_left (fun m e => map_set (fst e) (snd e) m) ws m.

(** The record a key maps to ([Map.prototype.get]). *)
Fixpoint map_get (k : string) (m : Map) : option Rec.t :=
  match m with
  | [] => None
  | (k', v) :: m' => if String.eqb k' k then Some v else map_get k m'
  end.

(** The record of the last write to a key. *)
Fixpoint last_write (k : string) (ws : Map) : option Rec.t :=
  match ws with
  | [] => None
  | (k', v) :: rest =>
      match last_write k rest with
      | Some r => Some r
      | None => if String.eqb k' k then Some v else None
      end
  end.

(** The keys of a sequence in the order of their first occurrence,
    leaving out those in [seen]. *)
Fixpoint first_occurrences (seen ks : list string) : list string :=
  match ks with
  | [] => []
  | k :: rest =>
      if existsb (String.eqb k) seen then first_occurrences seen rest
      else k :: first_occurrences (seen ++ [k]) rest
  end.

(** Order-preserving selection of elements of a list. *)
Inductive subsequence {A : Type} : list A -> list A -> Prop :=
| subsequence_nil : subsequence [] []
| subsequence_take (x : A) (l1 l2 : list A) :
    subsequence l1 l2 -> subsequence (x :: l1) (x :: l2)
| subsequence_drop (x : A) (l1 l2 : list A) :
    subsequence l1 l2 -> subsequence l1 (x :: l2).

(** The ordering as first stated: the rows of some metrics with pairwise
    distinct display names, in the order of the analytics list, then the
    rows of some participants, in the order of the participant list. *)
Definition rows_in_list_order (an : list Analytics.t) (participants : list value)
  (th : Thresholds) (out : list OutRow.t) : Prop :=
  exists ms qs,
    subsequence ms an
    /\ subsequence qs participants
    /\ NoDup (map (fun s => Rec.display (mk_record s)) ms)
    /\ out = map (fun s => analytics_row th (mk_record s)) ms
             ++ map participant_row qs.

(** The request went all the way to the resolver: an authenticated POST
    whose body is not a ping and names a transcript, which Fireflies
    returned as [t], and for which the resolver gave the rows
    [byPerson]. *)
Definition resolved (world : World.t) (request : Request.t) (env : Env.t)
  (payload : Payload.t) (t : Transcript.t) (byPerson : list OutRow.t) : Prop :=
  Request.method request = "POST"
  /\ strict_equal (Request.x_fireflies_secret request) (Env.WEBHOOK_SECRET env) = true
  /\ Request.json request = JsonValue payload
  /\ strict_equal (Payload.type payload) (VStr "ping") = false
  /\ truthy (transcriptId_of payload) = true
  /\ (exists ff,
        World.fireflies world (Env.FIREFLIES_API_KEY env) (transcriptId_of payload) = Some ff
        /\ transcript_of ff = Some t)
  /\ determineAttendance (speakers_of t) (speakerAnalytics_of t) (participants_of t)
       (thresholds_of_env env) = Ok byPerson.

(** The two calls of such a request: the query, then the write. *)
Definition query_then_write (world : World.t) (env : Env.t) (payload : Payload.t)
  (t : Transcript.t) (byPerson : list OutRow.t) : list call :=
  [ FetchedFireflies (Env.FIREFLIES_API_KEY env) (transcriptId_of payload);
    PostedSheets
      (sheets_url (Env.GOOGLE_API_KEY env) (Env.SHEET_ID env) (rangeA1_of env))
      (sheet_values world (transcriptId_of payload) t byPerson) ].



(** The ten cells written for a participant of a meeting that came
    without analytics. *)
Definition participant_cells (world : World.t) (payload : Payload.t) (t : Transcript.t)
  (email : value) : list value :=
  [ VStr (World.now world);
    transcriptId_of payload;
    email;
    VStr "FALSE";
    VStr "0.50";
    VStr "Present in participant list but no speech/activity detected";
    js_or (Transcript.title t) (VStr "");
    js_or (Transcript.date t) (VStr "");
    js_nullish (Transcript.duration_seconds t) (VStr "");
    js_or (Transcript.transcript_url t) (VStr "") ].

(** Classes of binary64 values, read on their specification: not
    negative (a zero, a positive number or +infinity), strictly positive,
    NaN. *)
Definition SFnonneg (f : spec_float) : bool :=
  match f with
  | S754_zero _ | S754_finite false _ _ | S754_infinity false => true
  | _ => false
  end.

Definition SFpositive (f : spec_float) : bool :=
  match f with
  | S754_finite false _ _ | S754_infinity false => true
  | _ => false
  end.

Definition SFnan (f : spec_float) : bool :=
  match f with
  | S754_nan => true
  | _ => false
  end.

(** A measure as the data model has it: not negative and finite. *)
Definition nonneg_finite (x : float) : Prop :=
  (0 <=? x)%float = true /\ (x <? infinity)%float = true.

(** * Properties *)

(** ** The three loops *)

Lemma bind_ok {A B : Type} (r : result A) (k : A -> result B) (b : B) :
  bind r k = Ok b -> exists a, r = Ok a /\ k a = Ok b.
Proof.
  destruct r as [a|e]; simpl; intros H; [exists a; split; [reflexivity|exact H] | discriminate].
Qed.

Lemma emit_analytics_spec (th : Thresholds) (entries : Map) :
  forall rows seen,
    emit_analytics th entries rows seen =
    (rows ++ map (analytics_row th) (distinct_displays seen (map snd entries)),
     seen ++ map Rec.display (distinct_displays seen (map snd entries))).
Proof.
  induction entries as [|[k r] rest IH]; intros rows seen; simpl.
  - now rewrite !app_nil_r.
  - destruct (set_has (Rec.display r) seen).
    + apply IH.
    + rewrite IH. simpl. now rewrite <- !app_assoc.
Qed.

Lemma add_participants_ok (m : Map) (participants : list value) :
  forall rows out,
    add_participants m participants rows = Ok out ->
    out = rows ++ map participant_row (unmatched m participants)
    /\ Forall (fun email => exists k, norm email = Ok k) participants.
Proof.
  induction participants as [|email rest IH]; intros rows out H.
  - injection H as <-. now rewrite app_nil_r.
  - cbn [add_participants] in H.
    destruct (norm email) as [k|e] eqn:Hk; cbn [bind] in H; [|discriminate].
    unfold unmatched. cbn [filter]. rewrite Hk. fold (unmatched m rest).
    destruct (map_has ("e:" ++ k)%string m); cbn [negb].
    + destruct (IH _ _ H) as [-> HF]. split; [reflexivity|].
      constructor; [now exists k | exact HF].
    + destruct (IH _ _ H) as [-> HF]. split; [now rewrite <- app_assoc|].
      constructor; [now exists k | exact HF].
Qed.

Lemma unmatched_nil_index (participants : list value) :
  Forall (fun email => exists k, norm email = Ok k) participants ->
  unmatched [] participants = participants.
Proof.
  induction 1 as [|email rest [k Hk] _ IH]; [reflexivity|].
  unfold unmatched in *. cbn [filter]. rewrite Hk.
  cbn [map_has existsb negb]. f_equal. exact IH.
Qed.

Lemma distinct_displays_head (r : Rec.t) (recs : list Rec.t) :
  distinct_displays [] (r :: recs) = r :: distinct_displays [Rec.display r] recs.
Proof. reflexivity. Qed.

(** The last block never runs its loop on the rows of the first three:
    with an empty index every participant already has a row, with a
    non-empty index its first entry has one. *)
Lemma fallback_unreachable (th : Thresholds) (idx : Map) (participants : list value) :
  Forall (fun email => exists k, norm email = Ok k) participants ->
  let rows := map (analytics_row th) (distinct_displays [] (map snd idx))
              ++ map participant_row (unmatched idx participants) in
  fallback participants rows = rows.
Proof.
  intros HF rows. unfold fallback, no_rows_yet.
  destruct idx as [|[k r] idx].
  - subst rows. simpl. rewrite (unmatched_nil_index _ HF), length_map.
    destruct participants; reflexivity.
  - subst rows. reflexivity.
Qed.

(** What [determineAttendance] returns when it returns. *)
Lemma determineAttendance_ok (speakers : list Speaker.t) (an : list Analytics.t)
  (participants : list value) (th : Thresholds) (out : list OutRow.t) :
  determineAttendance speakers an participants th = Ok out ->
  exists idx,
    build_index [] an = Ok idx
    /\ out = map (analytics_row th) (distinct_displays [] (map snd idx))
             ++ map participant_row (unmatched idx participants)
    /\ Forall (fun email => exists k, norm email = Ok k) participants.
Proof.
  unfold determineAttendance. intros H.
  apply bind_ok in H as (idx & Hidx & H).
  rewrite emit_analytics_spec in H. simpl in H.
  apply bind_ok in H as (rows & Hrows & H).
  apply add_participants_ok in Hrows as [-> HF].
  injection H as <-. exists idx. split; [exact Hidx|]. split; [|exact HF].
  apply (fallback_unreachable th idx participants HF).
Qed.

(** ** The attended verdict *)

(** Comparisons do not tell the two zeros apart. *)
Lemma num_ge_zero (x t : float) :
  is_zero x = true -> num_ge x t = num_ge 0 t.
Proof.
  unfold is_zero, num_ge. rewrite eqb_spec, !leb_spec.
  change (Prim2SF zero) with (S754_zero false).
  change (Prim2SF 0) with (S754_zero false).
  destruct (Prim2SF x) as [[|]|[|]| |[|] mx ex]; cbn; try discriminate;
    intros _; destruct (Prim2SF t) as [st|st| |st mt et]; reflexivity.
Qed.

Lemma js_ge_measured (v : value) (t : float) :
  numeric_field v -> js_ge (js_or v (VNum 0)) t = num_ge (measured v) t.
Proof.
  destruct v as [| |b|x|s]; cbn [numeric_field]; intros H; try destruct H;
    try reflexivity.
  unfold js_ge, js_or, measured, truthy, to_number.
  destruct (is_zero x) eqn:Hz; cbn [orb negb].
  - destruct (is_nan x); [reflexivity|]. symmetry. now apply num_ge_zero.
  - destruct (is_nan x); reflexivity.
Qed.

(** C1: for every speaker metric (numeric fields that are numbers or
    missing) and every threshold configuration, [attended] is true iff
    wordCount >= minWords or durationSec >= minDurationSec or
    questionCount >= minQuestions, a missing field counting as 0; it is
    false exactly when all three comparisons fail. *)
Theorem attended_iff_some_threshold_met (rec : Rec.t) (th : Thresholds) :
  numeric_field (Rec.word_count rec) ->
  numeric_field (Rec.duration_sec rec) ->
  numeric_field (Rec.questions rec) ->
  let wordCount := measured (Rec.word_count rec) in
  let durationSec := measured (Rec.duration_sec rec) in
  let questionCount := measured (Rec.questions rec) in
  (isActive rec th = true <->
     num_ge wordCount (WORDS_MIN th) = true
     \/ num_ge durationSec (DURATION_MIN_SEC th) = true
     \/ num_ge questionCount (QUESTIONS_MIN th) = true)
  /\ (isActive rec th = false <->
        num_ge wordCount (WORDS_MIN th) = false
        /\ num_ge durationSec (DURATION_MIN_SEC th) = false
        /\ num_ge questionCount (QUESTIONS_MIN th) = false).
Proof.
  intros Hw Hd Hq. cbv zeta. unfold isActive.
  rewrite (js_ge_measured _ _ Hw), (js_ge_measured _ _ Hd), (js_ge_measured _ _ Hq).
  rewrite !orb_true_iff, !orb_false_iff.
  clear. tauto.
Qed.

(** ** Rows of the last block *)

Lemma last_unit_app (a b : string) :
  last_unit (a ++ b) =
  match last_unit b with
  | Some x => Some x
  | None => last_unit a
  end.
Proof.
  induction a as [|c a IH]; cbn [append last_unit].
  - destruct (last_unit b); reflexivity.
  - rewrite IH. destruct (last_unit b); reflexivity.
Qed.

(** The reason computed by [scoreActive] ends in the last letter of
    "words", "spoken", "questions" or "speech". *)
Lemma scoreActive_reason_last (rec : Rec.t) (th : Thresholds) :
  let c := last_unit (Scored.reason (scoreActive rec th)) in
  c = Some "s"%char \/ c = Some "n"%char \/ c = Some "h"%char.
Proof.
  cbv zeta. unfold scoreActive. cbn [Scored.reason].
  destruct (truthy (js_or (Rec.word_count rec) (VNum 0)));
    destruct (truthy (js_or (Rec.duration_sec rec) (VNum 0)));
    destruct (truthy (js_or (Rec.questions rec) (VNum 0)));
    cbn [app List.length Nat.eqb negb join];
    rewrite ?last_unit_app; cbn [last_unit]; auto.
Qed.

Lemma analytics_row_not_fallback (th : Thresholds) (rec : Rec.t) :
  is_fallback_row (analytics_row th rec) = false.
Proof.
  unfold is_fallback_row, analytics_row. cbn [OutRow.reason].
  destruct (String.eqb_spec (Scored.reason (scoreActive rec th))
              "Analytics unavailable; cannot confirm activity") as [E|_].
  - pose proof (scoreActive_reason_last rec th) as H. cbv zeta in H.
    rewrite E in H. cbn in H. destruct H as [H|[H|H]]; discriminate.
  - apply andb_false_r.
Qed.

Lemma participant_row_not_fallback (email : value) :
  is_fallback_row (participant_row email) = false.
Proof. reflexivity. Qed.

Lemma existsb_map_false {A B : Type} (f : B -> bool) (g : A -> B) (l : list A) :
  (forall a, f (g a) = false) -> existsb f (map g l) = false.
Proof.
  intros H. induction l as [|a l IH]; cbn; [reflexivity|]. now rewrite H, IH.
Qed.

(** C6: rows of the last block ([attended] false, [confidence] 0.4,
    reason "Analytics unavailable; cannot confirm activity") appear in
    the output only when the analytics list is empty and the participant
    list is not. The rows returned never hold one: whenever a participant
    is listed, the first three blocks have already produced a row, so the
    condition holds with nothing to check on either list. *)
Theorem fallback_rows_only_without_analytics (speakers : list Speaker.t)
  (an : list Analytics.t) (participants : list value) (th : Thresholds)
  (out : list OutRow.t) :
  determineAttendance speakers an participants th = Ok out ->
  existsb is_fallback_row out = false
  /\ (forall r, In r out -> is_fallback_row r = true ->
                an = [] /\ participants <> []).
Proof.
  intros H. apply determineAttendance_ok in H as (idx & _ & -> & _).
  assert (E : existsb is_fallback_row
                (map (analytics_row th) (distinct_displays [] (map snd idx))
                 ++ map participant_row (unmatched idx participants)) = false).
  { rewrite existsb_app, !existsb_map_false; auto using analytics_row_not_fallback,
      participant_row_not_fallback. }
  split; [exact E|].
  intros r Hin Hr. exfalso.
  assert (existsb is_fallback_row
            (map (analytics_row th) (distinct_displays [] (map snd idx))
             ++ map participant_row (unmatched idx participants)) = true) as E'.
  { apply existsb_exists. exists r. split; assumption. }
  rewrite E in E'. discriminate.
Qed.

(** ** Totality and neutral defaults *)

Lemma norm_string_field (v : value) :
  string_field v -> exists k, norm v = Ok k.
Proof.
  destruct v as [| |b|x|s]; cbn [string_field]; intros H; try destruct H.
  - now exists "".
  - now exists "".
  - unfold norm, js_or. destruct (truthy (VStr s)); eexists; reflexivity.
Qed.

Lemma index_speaker_total (m : Map) (s : Analytics.t) :
  string_field (Analytics.name s) -> string_field (Analytics.user_email s) ->
  exists m', index_speaker m s = Ok m'.
Proof.
  intros Hn He. unfold index_speaker.
  destruct (norm_string_field _ Hn) as [kn ->].
  destruct (norm_string_field _ He) as [ke ->].
  cbn [bind]. eexists; reflexivity.
Qed.

Lemma build_index_total (an : list Analytics.t) :
  Forall (fun s => string_field (Analytics.name s)
                   /\ string_field (Analytics.user_email s)) an ->
  forall m, exists idx, build_index m an = Ok idx.
Proof.
  induction 1 as [|s an [Hn He] _ IH]; intros m; cbn [build_index].
  - now exists m.
  - destruct (index_speaker_total m s Hn He) as [m' ->]. cbn [bind]. apply IH.
Qed.

Lemma add_participants_total (m : Map) (participants : list value) :
  Forall (fun email => exists k, norm email = Ok k) participants ->
  forall rows,
    add_participants m participants rows =
    Ok (rows ++ map participant_row (unmatched m participants)).
Proof.
  induction 1 as [|email rest [k Hk] _ IH]; intros rows.
  - cbn. now rewrite app_nil_r.
  - cbn [add_participants]. unfold unmatched. cbn [filter]. rewrite Hk.
    fold (unmatched m rest). cbn [bind].
    destruct (map_has ("e:" ++ k)%string m); cbn [negb]; rewrite IH.
    + reflexivity.
    + cbn [map]. now rewrite <- app_assoc.
Qed.

(** The result of [determineAttendance] from the index and the
    normalizable participants. *)
Lemma determineAttendance_eq (speakers : list Speaker.t) (an : list Analytics.t)
  (participants : list value) (th : Thresholds) (idx : Map) :
  build_index [] an = Ok idx ->
  Forall (fun email => exists k, norm email = Ok k) participants ->
  determineAttendance speakers an participants th =
  Ok (map (analytics_row th) (distinct_displays [] (map snd idx))
      ++ map participant_row (unmatched idx participants)).
Proof.
  intros Hidx HF. unfold determineAttendance. rewrite Hidx. cbn [bind].
  rewrite emit_analytics_spec. cbn [app].
  rewrite (add_participants_total idx participants HF). cbn [bind].
  f_equal. apply (fallback_unreachable th idx participants HF).
Qed.

Lemma js_or_zero_if_falsy (v d : value) :
  truthy d = false ->
  js_or (js_nullish (zero_if_falsy v) d) (VNum 0) = js_or (js_nullish v d) (VNum 0).
Proof.
  intros Hd. destruct v as [| |b|x|s]; cbn [zero_if_falsy js_nullish].
  - unfold js_or. now rewrite Hd.
  - unfold js_or. now rewrite Hd.
  - now destruct b.
  - destruct (is_nan x) eqn:Hx; cbn [js_nullish]; [|reflexivity].
    unfold js_or, truthy. rewrite Hx, orb_true_r. reflexivity.
  - destruct (String.eqb s "") eqn:Hs; cbn [js_nullish]; [|reflexivity].
    unfold js_or, truthy. now rewrite Hs.
Qed.

Lemma analytics_row_with_defaults (th : Thresholds) (s : Analytics.t) :
  analytics_row th (mk_record (with_defaults s)) = analytics_row th (mk_record s).
Proof.
  destruct s as [n e w d q p].
  unfold analytics_row, isActive, scoreActive, mk_record, with_defaults.
  cbn [Rec.display Rec.word_count Rec.duration_sec Rec.questions
       Analytics.name Analytics.user_email Analytics.word_count
       Analytics.duration_sec Analytics.questions Analytics.duration_pct].
  rewrite !js_or_zero_if_falsy by reflexivity. reflexivity.
Qed.

Lemma same_rows_refl (th : Thresholds) (m : Map) : same_rows th m m.
Proof. induction m; constructor; auto. Qed.

Lemma same_rows_set (th : Thresholds) (k : string) (r1 r2 : Rec.t) (m1 m2 : Map) :
  analytics_row th r1 = analytics_row th r2 ->
  same_rows th m1 m2 ->
  same_rows th (map_set k r1 m1) (map_set k r2 m2).
Proof.
  intros Hr. induction 1 as [|[k1 v1] [k2 v2] m1 m2 [Hk Hv] Hm IH]; cbn [map_set].
  - constructor; [split; [reflexivity|exact Hr] | constructor].
  - cbn [fst snd] in Hk, Hv. subst k2.
    destruct (String.eqb k1 k).
    + constructor; [split; [reflexivity|exact Hr] | exact Hm].
    + constructor; [split; [reflexivity|exact Hv] | exact IH].
Qed.

Lemma same_rows_index_speaker (th : Thresholds) (s : Analytics.t) (m1 m2 m1' : Map) :
  same_rows th m1 m2 ->
  index_speaker m1 s = Ok m1' ->
  exists m2', index_speaker m2 (with_defaults s) = Ok m2' /\ same_rows th m1' m2'.
Proof.
  intros Hm H. unfold index_speaker in *.
  change (Analytics.name (with_defaults s)) with (Analytics.name s).
  change (Analytics.user_email (with_defaults s)) with (Analytics.user_email s).
  destruct (norm (Analytics.name s)) as [kn|]; cbn [bind] in *; [|discriminate].
  destruct (norm (Analytics.user_email s)) as [ke|]; cbn [bind] in *; [|discriminate].
  injection H as <-. eexists; split; [reflexivity|].
  pose proof (analytics_row_with_defaults th s) as Hr. symmetry in Hr.
  destruct (negb (kn =? "")%string), (negb (ke =? "")%string);
    auto using same_rows_set.
Qed.

Lemma same_rows_build_index (th : Thresholds) (an : list Analytics.t) :
  forall m1 m2 idx1,
    same_rows th m1 m2 ->
    build_index m1 an = Ok idx1 ->
    exists idx2, build_index m2 (map with_defaults an) = Ok idx2
                 /\ same_rows th idx1 idx2.
Proof.
  induction an as [|s an IH]; intros m1 m2 idx1 Hm H; cbn [build_index map] in *.
  - injection H as <-. now exists m2.
  - apply bind_ok in H as (m1' & Hs & H).
    destruct (same_rows_index_speaker th s m1 m2 m1' Hm Hs) as (m2' & -> & Hm').
    cbn [bind]. exact (IH _ _ _ Hm' H).
Qed.

Lemma same_rows_emitted (th : Thresholds) (m1 m2 : Map) :
  same_rows th m1 m2 ->
  forall seen,
    map (analytics_row th) (distinct_displays seen (map snd m1)) =
    map (analytics_row th) (distinct_displays seen (map snd m2)).
Proof.
  induction 1 as [|[k1 v1] [k2 v2] m1 m2 [_ Hv] _ IH]; intros seen; [reflexivity|].
  cbn [fst snd] in Hv. cbn [map snd distinct_displays].
  assert (Hd : Rec.display v1 = Rec.display v2)
    by exact (f_equal OutRow.person Hv).
  rewrite Hd. destruct (set_has (Rec.display v2) seen); [apply IH|].
  cbn [map]. now rewrite Hv, IH.
Qed.

Lemma same_rows_has (th : Thresholds) (m1 m2 : Map) (k : string) :
  same_rows th m1 m2 -> map_has k m1 = map_has k m2.
Proof.
  induction 1 as [|e1 e2 m1 m2 [Hk _] _ IH]; [reflexivity|].
  unfold map_has in *. cbn [existsb]. now rewrite Hk, IH.
Qed.

Lemma same_rows_unmatched (th : Thresholds) (m1 m2 : Map) (participants : list value) :
  same_rows th m1 m2 -> unmatched m1 participants = unmatched m2 participants.
Proof.
  intros Hm. unfold unmatched. apply filter_ext. intros email.
  destruct (norm email); [|reflexivity]. now rewrite (same_rows_has th m1 m2 _ Hm).
Qed.

(** The index as the sequence of its writes. *)
Lemma index_speaker_writes (m m' : Map) (s : Analytics.t) :
  index_speaker m s = Ok m' ->
  m' = set_all (map (fun k => (k, mk_record s)) (entry_keys s)) m.
Proof.
  unfold index_speaker, entry_keys.
  destruct (norm (Analytics.name s)) as [kn|]; cbn [bind]; [|discriminate].
  destruct (norm (Analytics.user_email s)) as [ke|]; cbn [bind]; [|discriminate].
  intros H. injection H as <-.
  destruct (negb (String.eqb kn "")), (negb (String.eqb ke "")); reflexivity.
Qed.

Lemma build_index_writes (an : list Analytics.t) :
  forall m idx, build_index m an = Ok idx -> idx = set_all (writes an) m.
Proof.
  induction an as [|s an IH]; intros m idx H; cbn [build_index] in H.
  - now injection H as <-.
  - apply bind_ok in H as (m' & Hs & H).
    apply index_speaker_writes in Hs. subst m'.
    unfold writes. cbn [flat_map]. unfold set_all. rewrite fold_left_app.
    exact (IH _ _ H).
Qed.

(** C7, amended: on every well-typed input the resolver throws no
    exception, whatever the numeric fields hold, malformed values
    included. It returns the rows of the records of the index, one per
    display value, then the rows of the participants whose e-mail is no
    key of the index. A numeric field that is missing (absent, null or
    NaN) or holds a falsy malformed value (the empty string, [false])
    has the effect of the neutral default 0. A truthy malformed value is
    not replaced: the counterexample [malformed_field_not_defaulted]
    shows its effect. *)
Theorem resolver_total (speakers : list Speaker.t) (an : list Analytics.t)
  (participants : list value) (th : Thresholds) :
  well_typed an participants ->
  exists rows,
    determineAttendance speakers an participants th = Ok rows
    /\ rows = map (analytics_row th)
                (distinct_displays [] (map snd (set_all (writes an) [])))
              ++ map participant_row (unmatched (set_all (writes an) []) participants)
    /\ determineAttendance speakers (map with_defaults an) participants th = Ok rows.
Proof.
  intros [Han Hps].
  destruct (build_index_total an Han []) as [idx Hidx].
  assert (HF : Forall (fun email => exists k, norm email = Ok k) participants).
  { eapply Forall_impl; [|exact Hps]. exact norm_string_field. }
  destruct (same_rows_build_index th an [] [] idx (same_rows_refl th []) Hidx)
    as (idx' & Hidx' & Hm).
  eexists. split; [|split].
  - exact (determineAttendance_eq speakers an participants th idx Hidx HF).
  - now rewrite (build_index_writes an [] idx Hidx).
  - rewrite (determineAttendance_eq speakers _ participants th idx' Hidx' HF).
    now rewrite (same_rows_emitted th idx idx' Hm), (same_rows_unmatched th idx idx' _ Hm).
Qed.

(** ** Order of the rows *)

Lemma keys_map_set (k : string) (r : Rec.t) (m : Map) :
  map fst (map_set k r m) =
  if existsb (String.eqb k) (map fst m) then map fst m else map fst m ++ [k].
Proof.
  induction m as [|[k' v'] m IH]; cbn [map_set map fst existsb app]; [reflexivity|].
  rewrite (String.eqb_sym k k').
  destruct (String.eqb k' k) eqn:E; cbn [orb map fst]; [reflexivity|].
  rewrite IH. destruct (existsb (String.eqb k) (map fst m)); reflexivity.
Qed.

Lemma keys_set_all (ws : Map) :
  forall m,
    map fst (set_all ws m) = map fst m ++ first_occurrences (map fst m) (map fst ws).
Proof.
  induction ws as [|[k r] ws IH]; intros m; cbn [set_all fold_left map fst first_occurrences].
  - now rewrite app_nil_r.
  - fold (set_all ws (map_set k r m)). rewrite IH, keys_map_set.
    destruct (existsb (String.eqb k) (map fst m)); [reflexivity|].
    now rewrite <- app_assoc.
Qed.

Lemma map_get_map_set (k k0 : string) (r0 : Rec.t) (m : Map) :
  map_get k (map_set k0 r0 m) = if String.eqb k0 k then Some r0 else map_get k m.
Proof.
  induction m as [|[k' v'] m IH]; cbn [map_set map_get]; [reflexivity|].
  destruct (String.eqb_spec k' k0) as [->|Hne]; cbn [map_get].
  - destruct (String.eqb k0 k); reflexivity.
  - destruct (String.eqb_spec k' k) as [->|Hne'].
    + destruct (String.eqb_spec k0 k) as [->|_]; [congruence|reflexivity].
    + exact IH.
Qed.

Lemma map_get_set_all (k : string) (ws : Map) :
  forall m,
    map_get k (set_all ws m) =
    match last_write k ws with
    | Some r => Some r
    | None => map_get k m
    end.
Proof.
  induction ws as [|[k0 r0] ws IH]; intros m; cbn [set_all fold_left last_write fst snd].
  - reflexivity.
  - fold (set_all ws (map_set k0 r0 m)). rewrite IH, map_get_map_set.
    destruct (last_write k ws); [reflexivity|].
    destruct (String.eqb k0 k); reflexivity.
Qed.

Lemma same_value_zero_refl (v : value) : same_value_zero v v = true.
Proof.
  destruct v as [| |b|x|s]; cbn [same_value_zero]; try reflexivity.
  - now destruct b.
  - unfold is_nan. now destruct (x =? x)%float.
  - apply String.eqb_refl.
Qed.

Lemma set_has_app (v : value) (seen1 seen2 : list value) :
  set_has v (seen1 ++ seen2) = set_has v seen1 || set_has v seen2.
Proof. apply existsb_app. Qed.

Lemma distinct_displays_unseen (recs : list Rec.t) :
  forall seen r,
    In r (distinct_displays seen recs) -> set_has (Rec.display r) seen = false.
Proof.
  induction recs as [|r0 recs IH]; intros seen r Hin; cbn [distinct_displays] in Hin.
  - destruct Hin.
  - destruct (set_has (Rec.display r0) seen) eqn:E.
    + exact (IH _ _ Hin).
    + destruct Hin as [<-|Hin]; [exact E|].
      apply IH in Hin. rewrite set_has_app in Hin.
      now apply orb_false_iff in Hin.
Qed.

Lemma distinct_displays_NoDup (recs : list Rec.t) :
  forall seen, NoDup (map Rec.display (distinct_displays seen recs)).
Proof.
  induction recs as [|r0 recs IH]; intros seen; cbn [distinct_displays].
  - constructor.
  - destruct (set_has (Rec.display r0) seen); [apply IH|].
    cbn [map]. constructor; [|apply IH].
    intros Hin. apply in_map_iff in Hin as (r & Hr & Hin).
    apply distinct_displays_unseen in Hin.
    rewrite set_has_app, Hr in Hin. apply orb_false_iff in Hin as [_ Hin].
    cbn [set_has existsb] in Hin. now rewrite same_value_zero_refl in Hin.
Qed.

(** C5, as the code has it: when the resolver returns, its output is
    the analytics rows followed by the participant rows. The analytics
    rows, at most one per distinct display name, follow the order in
    which the lookup keys were first written to the index, each key
    holding the metric that wrote it last; the participant rows follow
    the participant list. Nothing is sorted by name or confidence. *)
Theorem rows_in_key_insertion_order (speakers : list Speaker.t)
  (an : list Analytics.t) (participants : list value) (th : Thresholds)
  (out : list OutRow.t) :
  determineAttendance speakers an participants th = Ok out ->
  exists idx,
    map fst idx = first_occurrences [] (map fst (writes an))
    /\ (forall k, map_get k idx = last_write k (writes an))
    /\ NoDup (map OutRow.person
                (map (analytics_row th) (distinct_displays [] (map snd idx))))
    /\ out = map (analytics_row th) (distinct_displays [] (map snd idx))
             ++ map participant_row (unmatched idx participants).
Proof.
  intros H. apply determineAttendance_ok in H as (idx & Hidx & -> & _).
  apply build_index_writes in Hidx. exists idx. repeat split.
  - subst idx. apply (keys_set_all (writes an) []).
  - intros k. subst idx. rewrite map_get_set_all.
    now destruct (last_write k (writes an)).
  - rewrite map_map. apply (distinct_displays_NoDup (map snd idx) []).
Qed.

(** ** Determinism *)

Lemma runs_refl (th : Thresholds) (participants : list value) (c : config) :
  runs th participants c c.
Proof. constructor. Qed.

Lemma runs_step (th : Thresholds) (participants : list value) (c1 c2 c3 : config) :
  step th participants c1 c2 -> runs th participants c2 c3 ->
  runs th participants c1 c3.
Proof. intros Hs H. econstructor; [exact Hs | exact H]. Qed.

Lemma step_deterministic (th : Thresholds) (participants : list value)
  (c c1 c2 : config) :
  step th participants c c1 -> step th participants c c2 -> c1 = c2.
Proof.
  intros H1 H2.
  inversion H1; subst; inversion H2; subst; try reflexivity; congruence.
Qed.

Lemma outcome_is_final (th : Thresholds) (participants : list value)
  (c c' : config) (r : result (list OutRow.t)) :
  outcome c = Some r -> step th participants c c' -> False.
Proof. intros Ho Hs. inversion Hs; subst; discriminate Ho. Qed.

Lemma runs_deterministic (th : Thresholds) (participants : list value)
  (c c1 c2 : config) (r1 r2 : result (list OutRow.t)) :
  runs th participants c c1 -> outcome c1 = Some r1 ->
  runs th participants c c2 -> outcome c2 = Some r2 ->
  r1 = r2.
Proof.
  unfold runs. intros H1. revert c2.
  induction H1 as [c|c c' c1 Hs H1 IH]; intros c2 Ho1 H2 Ho2.
  - destruct H2 as [|c' c2 Hs H2]; [congruence|].
    destruct (outcome_is_final _ _ _ _ _ Ho1 Hs).
  - destruct H2 as [|c'' c2 Hs' H2].
    + destruct (outcome_is_final _ _ _ _ _ Ho2 Hs).
    + rewrite <- (step_deterministic _ _ _ _ _ Hs Hs') in H2. exact (IH _ Ho1 H2 Ho2).
Qed.

Lemma runs_trans (th : Thresholds) (participants : list value) (c1 c2 c3 : config) :
  runs th participants c1 c2 -> runs th participants c2 c3 ->
  runs th participants c1 c3.
Proof.
  induction 1 as [|c1 c c2 Hs _ IH]; intros H; [exact H|].
  exact (runs_step _ _ _ _ _ Hs (IH H)).
Qed.

Lemma run_indexing (th : Thresholds) (participants : list value)
  (an : list Analytics.t) :
  forall idx rows seen,
    match build_index idx an with
    | Ok m =>
        runs th participants (Indexing an, mkState idx rows seen)
          (Emitting m, mkState m rows seen)
    | Throw e =>
        exists st, runs th participants (Indexing an, mkState idx rows seen) (Thrown e, st)
    end.
Proof.
  induction an as [|s an IH]; intros idx rows seen; cbn [build_index].
  - eapply runs_step; [apply step_index_done | apply runs_refl].
  - destruct (index_speaker idx s) as [m|e] eqn:Hs; cbn [bind].
    + specialize (IH m rows seen).
      destruct (build_index m an) as [m'|e].
      * eapply runs_step; [apply (step_index th participants s an (mkState idx rows seen) m Hs) | exact IH].
      * destruct IH as [st IH]. exists st.
        eapply runs_step; [apply (step_index th participants s an (mkState idx rows seen) m Hs) | exact IH].
    + eexists. eapply runs_step; [apply (step_index_throw th participants s an (mkState idx rows seen) e Hs) | apply runs_refl].
Qed.

Lemma run_emitting (th : Thresholds) (participants : list value) (idx todo : Map) :
  forall rows seen,
    runs th participants (Emitting todo, mkState idx rows seen)
      (Adding participants,
       mkState idx (fst (emit_analytics th todo rows seen))
         (snd (emit_analytics th todo rows seen))).
Proof.
  induction todo as [|[k rec] todo IH]; intros rows seen; cbn [emit_analytics].
  - eapply runs_step; [apply step_emit_done | apply runs_refl].
  - destruct (set_has (Rec.display rec) seen) eqn:Hseen.
    + eapply runs_step; [apply (step_emit_seen th participants k rec todo (mkState idx rows seen) Hseen) | apply IH].
    + eapply runs_step; [apply (step_emit_push th participants k rec todo (mkState idx rows seen) Hseen) | apply IH].
Qed.

Lemma run_adding (th : Thresholds) (participants : list value) (idx : Map)
  (seen : list value) (todo : list value) :
  forall rows,
    match add_participants idx todo rows with
    | Ok rows' =>
        runs th participants (Adding todo, mkState idx rows seen)
          (Checking, mkState idx rows' seen)
    | Throw e =>
        exists st, runs th participants (Adding todo, mkState idx rows seen) (Thrown e, st)
    end.
Proof.
  induction todo as [|email todo IH]; intros rows; cbn [add_participants].
  - eapply runs_step; [apply step_add_done | apply runs_refl].
  - destruct (norm email) as [k|e] eqn:Hk; cbn [bind].
    + destruct (map_has ("e:" ++ k)%string idx) eqn:Hhas.
      * specialize (IH rows). destruct (add_participants idx todo rows) as [rows'|e].
        -- eapply runs_step; [apply (step_add_skip th participants email todo (mkState idx rows seen) k Hk Hhas) | exact IH].
        -- destruct IH as [st IH]. exists st.
           eapply runs_step; [apply (step_add_skip th participants email todo (mkState idx rows seen) k Hk Hhas) | exact IH].
      * specialize (IH (rows ++ [participant_row email])).
        destruct (add_participants idx todo (rows ++ [participant_row email])) as [rows'|e].
        -- eapply runs_step; [apply (step_add_push th participants email todo (mkState idx rows seen) k Hk Hhas) | exact IH].
        -- destruct IH as [st IH]. exists st.
           eapply runs_step; [apply (step_add_push th participants email todo (mkState idx rows seen) k Hk Hhas) | exact IH].
    + eexists. eapply runs_step; [apply (step_add_throw th participants email todo (mkState idx rows seen) e Hk) | apply runs_refl].
Qed.

Lemma run_filling (th : Thresholds) (participants : list value) (idx : Map)
  (seen : list value) (todo : list value) :
  forall rows,
    runs th participants (Filling todo, mkState idx rows seen)
      (Returned,
       mkState idx (fold_left (fun rows email => rows ++ [fallback_row email]) todo rows)
         seen).
Proof.
  induction todo as [|email todo IH]; intros rows; cbn [fold_left].
  - eapply runs_step; [apply step_fill_done | apply runs_refl].
  - eapply runs_step; [apply step_fill | apply IH].
Qed.

Lemma run_checking (th : Thresholds) (participants : list value) (idx : Map)
  (rows : list OutRow.t) (seen : list value) :
  runs th participants (Checking, mkState idx rows seen)
    (Returned, mkState idx (fallback participants rows) seen).
Proof.
  unfold fallback. destruct (no_rows_yet participants rows) eqn:Hc.
  - eapply runs_step; [apply (step_check_fill th participants (mkState idx rows seen) Hc) | apply run_filling].
  - eapply runs_step; [apply (step_check_return th participants (mkState idx rows seen) Hc) | apply runs_refl].
Qed.

(** The machine reaches the result of the function. *)
Lemma resolves_determineAttendance (speakers : list Speaker.t)
  (an : list Analytics.t) (participants : list value) (th : Thresholds) :
  resolves an participants th (determineAttendance speakers an participants th).
Proof.
  unfold resolves, invoke, determineAttendance.
  pose proof (run_indexing th participants an [] [] []) as H1.
  destruct (build_index [] an) as [idx|e]; cbn [bind].
  - pose proof (run_emitting th participants idx idx [] []) as H2.
    destruct (emit_analytics th idx [] []) as [rows seen]. cbn [fst snd] in H2.
    pose proof (run_adding th participants idx seen participants rows) as H3.
    destruct (add_participants idx participants rows) as [rows'|e]; cbn [bind].
    + eexists. split.
      * eapply runs_trans; [exact H1|]. eapply runs_trans; [exact H2|].
        eapply runs_trans; [exact H3|]. apply run_checking.
      * reflexivity.
    + destruct H3 as [st H3]. exists (Thrown e, st). split; [|reflexivity].
      eapply runs_trans; [exact H1|]. eapply runs_trans; [exact H2|exact H3].
  - destruct H1 as [st H1]. exists (Thrown e, st). split; [exact H1|reflexivity].
Qed.

(** C8: two invocations of the resolver on the same speaker metrics,
    participants and thresholds end with the same result: the same rows
    in the same order, or the same exception. Nothing else (no clock, no
    random source) enters a step. *)
Theorem resolver_deterministic (an : list Analytics.t) (participants : list value)
  (th : Thresholds) (r1 r2 : result (list OutRow.t)) :
  resolves an participants th r1 ->
  resolves an participants th r2 ->
  r1 = r2.
Proof.
  intros (c1 & H1 & Ho1) (c2 & H2 & Ho2).
  exact (runs_deterministic th participants _ c1 c2 r1 r2 H1 Ho1 H2 Ho2).
Qed.

(** ** List order when no key is written twice *)

Lemma map_set_fresh (k : string) (r : Rec.t) (m : Map) :
  ~ In k (map fst m) -> map_set k r m = m ++ [(k, r)].
Proof.
  induction m as [|[k' v'] m IH]; cbn [map_set map fst app]; intros Hk; [reflexivity|].
  destruct (String.eqb_spec k' k) as [->|_].
  - destruct Hk. now left.
  - rewrite IH; [reflexivity|]. intros Hin. apply Hk. now right.
Qed.

Lemma set_all_fresh (ws : Map) :
  forall m, NoDup (map fst m ++ map fst ws) -> set_all ws m = m ++ ws.
Proof.
  induction ws as [|[k r] ws IH]; intros m Hnd; cbn [set_all fold_left fst snd].
  - now rewrite app_nil_r.
  - fold (set_all ws (map_set k r m)). cbn [map fst] in Hnd.
    pose proof (NoDup_remove_2 _ _ _ Hnd) as Hk.
    rewrite map_set_fresh by (intros Hin; apply Hk, in_or_app; now left).
    rewrite IH.
    + now rewrite <- app_assoc.
    + rewrite map_app. cbn [map fst]. now rewrite <- app_assoc.
Qed.

Lemma set_has_last (v : value) (seen : list value) :
  set_has v (seen ++ [v]) = true.
Proof.
  rewrite set_has_app. cbn [set_has existsb].
  rewrite same_value_zero_refl. apply orb_true_r.
Qed.

Lemma distinct_displays_entries (an : list Analytics.t) :
  forall seen,
    exists ms,
      subsequence ms an
      /\ distinct_displays seen (map snd (writes an)) = map mk_record ms.
Proof.
  induction an as [|s an IH]; intros seen.
  - exists []. split; [constructor | reflexivity].
  - unfold writes. cbn [flat_map]. rewrite map_app, map_map. cbn [snd].
    fold (writes an).
    assert (Hskip : forall (seen' : list value) (ks : list string),
               set_has (Rec.display (mk_record s)) seen' = true ->
               distinct_displays seen' (map (fun _ => mk_record s) ks ++ map snd (writes an))
               = distinct_displays seen' (map snd (writes an))).
    { intros seen' ks Hs. induction ks as [|k ks IHk]; [reflexivity|].
      cbn [map app distinct_displays]. now rewrite Hs. }
    destruct (entry_keys s) as [|k ks] eqn:Hks.
    + destruct (IH seen) as (ms & Hms & E). exists ms. split; [now constructor | exact E].
    + destruct (set_has (Rec.display (mk_record s)) seen) eqn:Hs.
      * rewrite (Hskip seen (k :: ks) Hs).
        destruct (IH seen) as (ms & Hms & E). exists ms. split; [now constructor | exact E].
      * cbn [map app distinct_displays]. rewrite Hs.
        rewrite (Hskip _ ks (set_has_last _ seen)).
        destruct (IH (seen ++ [Rec.display (mk_record s)])) as (ms & Hms & E).
        exists (s :: ms). split; [now constructor|]. cbn [map]. now rewrite E.
Qed.

Lemma filter_subsequence {A : Type} (f : A -> bool) (l : list A) :
  subsequence (filter f l) l.
Proof.
  induction l as [|a l IH]; cbn [filter]; [constructor|].
  destruct (f a); now constructor.
Qed.

(** When no lookup key is written twice, the rows are in the order of
    the analytics list, as first stated. *)
Theorem rows_in_list_order_without_shared_keys (speakers : list Speaker.t)
  (an : list Analytics.t) (participants : list value) (th : Thresholds)
  (out : list OutRow.t) :
  determineAttendance speakers an participants th = Ok out ->
  NoDup (map fst (writes an)) ->
  rows_in_list_order an participants th out.
Proof.
  intros H Hnd. apply determineAttendance_ok in H as (idx & Hidx & -> & _).
  apply build_index_writes in Hidx. rewrite (set_all_fresh _ [] Hnd) in Hidx.
  cbn [app] in Hidx. subst idx.
  destruct (distinct_displays_entries an []) as (ms & Hms & E).
  exists ms, (unmatched (writes an) participants). repeat split.
  - exact Hms.
  - apply filter_subsequence.
  - rewrite <- (map_map mk_record Rec.display), <- E. apply distinct_displays_NoDup.
  - now rewrite E, map_map.
Qed.

(** ** Empty output, and output without analytics *)

Lemma index_speaker_keyless (m m' : Map) (s : Analytics.t) :
  index_speaker m s = Ok m' ->
  (entry_keys s = [] <->
   norm (Analytics.name s) = Ok "" /\ norm (Analytics.user_email s) = Ok "").
Proof.
  unfold index_speaker, entry_keys.
  destruct (norm (Analytics.name s)) as [kn|]; cbn [bind]; [|discriminate].
  destruct (norm (Analytics.user_email s)) as [ke|]; cbn [bind]; [|discriminate].
  intros _.
  destruct (String.eqb_spec kn "") as [->|Hn], (String.eqb_spec ke "") as [->|He];
    cbn [negb app]; split; try discriminate; try (intros [? ?]; congruence); auto.
Qed.

Lemma build_index_keyless (an : list Analytics.t) :
  forall m idx,
    build_index m an = Ok idx ->
    (writes an = [] <->
     Forall (fun s => norm (Analytics.name s) = Ok ""
                      /\ norm (Analytics.user_email s) = Ok "") an).
Proof.
  induction an as [|s an IH]; intros m idx H; cbn [build_index] in H.
  - split; [constructor | reflexivity].
  - apply bind_ok in H as (m' & Hs & H).
    pose proof (index_speaker_keyless _ _ _ Hs) as Hk. specialize (IH _ _ H).
    unfold writes in *. cbn [flat_map]. split.
    + intros E. apply app_eq_nil in E as [E1 E2].
      apply map_eq_nil in E1. constructor; [now apply Hk | now apply IH].
    + intros HF. inversion HF as [|s' an' Hs' HF']; subst.
      apply Hk in Hs'. rewrite Hs'. cbn [map app]. now apply IH.
Qed.

Lemma first_occurrences_nil (ks : list string) :
  first_occurrences [] ks = [] -> ks = [].
Proof. destruct ks; [reflexivity | discriminate]. Qed.

(** The output is empty exactly when no participant is listed and every
    analytics entry is without a key. *)
Theorem empty_output_iff (speakers : list Speaker.t) (an : list Analytics.t)
  (participants : list value) (th : Thresholds) (out : list OutRow.t) :
  determineAttendance speakers an participants th = Ok out ->
  (out = [] <->
   participants = []
   /\ Forall (fun s => norm (Analytics.name s) = Ok ""
                       /\ norm (Analytics.user_email s) = Ok "") an).
Proof.
  intros H. apply determineAttendance_ok in H as (idx & Hidx & -> & HF).
  pose proof (build_index_keyless an [] idx Hidx) as Hk.
  apply build_index_writes in Hidx.
  pose proof (keys_set_all (writes an) []) as Hkeys. rewrite <- Hidx in Hkeys.
  cbn [map app] in Hkeys. split.
  - intros E. apply app_eq_nil in E as [EA EP].
    apply map_eq_nil in EA, EP.
    assert (idx = []) as ->.
    { destruct idx as [|[k r] idx]; [reflexivity | discriminate EA]. }
    rewrite (unmatched_nil_index _ HF) in EP. split; [exact EP|].
    apply Hk. apply map_eq_nil with (f := fst). apply first_occurrences_nil.
    now rewrite <- Hkeys.
  - intros [-> Han]. apply Hk in Han. rewrite Han in Hidx. cbn in Hidx.
    subst idx. reflexivity.
Qed.

(** Without analytics every participant gets the row of the participant
    loop. *)
Theorem no_analytics_rows (speakers : list Speaker.t) (participants : list value)
  (th : Thresholds) :
  Forall string_field participants ->
  determineAttendance speakers [] participants th =
  Ok (map participant_row participants).
Proof.
  intros Hps.
  assert (HF : Forall (fun email => exists k, norm email = Ok k) participants).
  { eapply Forall_impl; [|exact Hps]. exact norm_string_field. }
  rewrite (determineAttendance_eq speakers [] participants th [] eq_refl HF).
  cbn [map snd distinct_displays app]. now rewrite (unmatched_nil_index _ HF).
Qed.

(** ** The confidence value *)

Lemma shr_1_nonneg (mrs : shr_record) :
  (0 <= shr_m mrs)%Z -> (0 <= shr_m (shr_1 mrs))%Z.
Proof.
  destruct mrs as [m r s]. destruct m as [|p|p]; try destruct p; cbn; lia.
Qed.

Lemma iter_pos_invariant {A : Type} (P : A -> Prop) (f : A -> A) :
  (forall x, P x -> P (f x)) -> forall p x, P x -> P (iter_pos f p x).
Proof.
  intros Hf. induction p as [p IH|p IH|]; intros x Hx; cbn; auto.
Qed.

Lemma shr_nonneg (mrs : shr_record) (e n : Z) :
  (0 <= shr_m mrs)%Z -> (0 <= shr_m (fst (shr mrs e n)))%Z.
Proof.
  intros H. destruct n; cbn; try exact H.
  now apply (iter_pos_invariant (fun r => (0 <= shr_m r)%Z) shr_1 shr_1_nonneg).
Qed.

Lemma shr_fexp_nonneg (m e : Z) (l : location) :
  (0 <= m)%Z -> (0 <= shr_m (fst (shr_fexp prec emax m e l)))%Z.
Proof.
  intros H. unfold shr_fexp. apply shr_nonneg. destruct l as [|[ | | ]]; exact H.
Qed.

Lemma round_nearest_even_nonneg (m : Z) (l : location) :
  (0 <= m)%Z -> (0 <= round_nearest_even m l)%Z.
Proof.
  intros H. destruct l as [|[ | | ]]; cbn; try destruct (Z.even m); lia.
Qed.

(** Rounding a mantissa that is not negative gives a zero, a positive
    number or +infinity, never NaN. *)
Lemma binary_round_aux_nonneg (m e : Z) (l : location) :
  (0 <= m)%Z -> SFnonneg (binary_round_aux prec emax false m e l) = true.
Proof.
  intros H. unfold binary_round_aux.
  pose proof (shr_fexp_nonneg m e l H) as H1.
  destruct (shr_fexp prec emax m e l) as [mrs' e']. cbn [fst] in H1.
  pose proof (shr_fexp_nonneg _ e' loc_Exact
                (round_nearest_even_nonneg _ (loc_of_shr_record mrs') H1)) as H2.
  destruct (shr_fexp prec emax
              (round_nearest_even (shr_m mrs') (loc_of_shr_record mrs')) e' loc_Exact)
    as [mrs'' e'']. cbn [fst] in H2.
  destruct (shr_m mrs'') as [|p|p]; [reflexivity | | lia].
  destruct (Z.leb e'' (emax - prec)); reflexivity.
Qed.

Lemma SFadd_nonneg (x y : spec_float) :
  SFnonneg x = true -> SFnonneg y = true -> SFnonneg (SF64add x y) = true.
Proof.
  destruct x as [sx|[|]| |[|] mx ex]; try discriminate;
  destruct y as [sy|[|]| |[|] my ey]; try discriminate; intros _ _;
    try reflexivity.
  - destruct sx, sy; reflexivity.
  - unfold SF64add, SFadd. cbn [cond_Zopp].
    cbn [Z.add binary_normalize]. unfold binary_round.
    destruct (shl_align _ _ _) as [mz ez].
    now apply binary_round_aux_nonneg.
Qed.

Lemma SFmul_nonneg (x y : spec_float) :
  SFnonneg x = true -> SFnonneg y = true ->
  match x, y with
  | S754_infinity _, S754_zero _ | S754_zero _, S754_infinity _ => True
  | _, _ => SFnonneg (SF64mul x y) = true
  end.
Proof.
  destruct x as [sx|[|]| |[|] mx ex]; try discriminate;
  destruct y as [sy|[|]| |[|] my ey]; try discriminate; intros _ _;
    try reflexivity; try exact I.
  unfold SF64mul, SFmul. cbn [xorb]. now apply binary_round_aux_nonneg.
Qed.

Lemma SFdiv_nonneg (x y : spec_float) :
  SFnonneg x = true -> SFpositive y = true ->
  match x with
  | S754_infinity _ => True
  | _ => SFnonneg (SF64div x y) = true
  end.
Proof.
  destruct x as [sx|[|]| |[|] mx ex]; try discriminate;
  destruct y as [sy|[|]| |[|] my ey]; try discriminate; intros _ _;
    try reflexivity; try exact I.
  unfold SF64div, SFdiv, SFdiv_core_binary. cbn [xorb].
  set (m' := match (ex - ey - _)%Z with Zpos _ => _ | Z0 => _ | Zneg _ => _ end).
  assert (Hm : (0 <= m')%Z).
  { subst m'. destruct (ex - ey - _)%Z; try lia. now apply Z.shiftl_nonneg. }
  pose proof (Z.div_pos m' (Zpos my) Hm eq_refl) as Hq. unfold Z.div in Hq.
  destruct (Z.div_eucl m' (Zpos my)) as [q r].
  now apply binary_round_aux_nonneg.
Qed.

Lemma SFcompare_refl (f : spec_float) :
  SFcompare f f = if SFnan f then None else Some Eq.
Proof.
  destruct f as [s|[|]| |[|] m e]; cbn; try reflexivity;
    rewrite Z.compare_refl, Pos.compare_cont_refl; reflexivity.
Qed.

Lemma SFcompare_antisym (x y : spec_float) :
  SFcompare y x = option_map CompOpp (SFcompare x y).
Proof.
  destruct x as [sx|[|]| |[|] mx ex]; destruct y as [sy|[|]| |[|] my ey];
    cbn; try reflexivity; try (destruct sx; reflexivity); try (destruct sy; reflexivity);
    rewrite (Z.compare_antisym ex ey); destruct (ex ?= ey)%Z; cbn; try reflexivity;
    rewrite (Pos.compare_cont_antisym mx my Eq); reflexivity.
Qed.

Lemma nonneg_spec (x : float) : (0 <=? x)%float = SFnonneg (Prim2SF x).
Proof.
  rewrite leb_spec. change (Prim2SF 0) with (S754_zero false).
  destruct (Prim2SF x) as [s|[|]| |[|] m e]; reflexivity.
Qed.

Lemma positive_spec (y : float) : (0 <? y)%float = SFpositive (Prim2SF y).
Proof.
  rewrite ltb_spec. change (Prim2SF 0) with (S754_zero false).
  destruct (Prim2SF y) as [s|[|]| |[|] m e]; reflexivity.
Qed.

Lemma is_nan_spec (x : float) : is_nan x = SFnan (Prim2SF x).
Proof.
  unfold is_nan. rewrite eqb_spec. unfold SFeqb. rewrite SFcompare_refl.
  now destruct (SFnan (Prim2SF x)).
Qed.

Lemma below_infinity_spec (x : float) :
  (x <? infinity)%float =
  match Prim2SF x with
  | S754_nan | S754_infinity false => false
  | _ => true
  end.
Proof.
  rewrite ltb_spec. change (Prim2SF infinity) with (S754_infinity false).
  destruct (Prim2SF x) as [s|[|]| |[|] m e]; reflexivity.
Qed.

Lemma ltb_leb (a b : float) : (a <? b)%float = true -> (a <=? b)%float = true.
Proof.
  rewrite ltb_spec, leb_spec. unfold SFltb, SFleb.
  destruct (SFcompare (Prim2SF a) (Prim2SF b)) as [[ | | ]|]; congruence.
Qed.

Lemma not_ltb_leb (a b : float) :
  is_nan a = false -> is_nan b = false ->
  (a <? b)%float = false -> (b <=? a)%float = true.
Proof.
  rewrite !is_nan_spec, ltb_spec, leb_spec. unfold SFltb, SFleb.
  rewrite (SFcompare_antisym (Prim2SF a) (Prim2SF b)).
  destruct (Prim2SF a) as [sx|[|]| |[|] mx ex];
    destruct (Prim2SF b) as [sy|[|]| |[|] my ey];
    cbn [SFnan]; try discriminate; intros _ _;
    destruct (SFcompare _ _) as [[ | | ]|] eqn:E; cbn; try congruence;
    cbn in E; try discriminate;
    try (destruct sx; discriminate); try (destruct sy; discriminate).
Qed.

Lemma nonneg_not_nan (x : float) : (0 <=? x)%float = true -> is_nan x = false.
Proof.
  rewrite nonneg_spec, is_nan_spec. now destruct (Prim2SF x) as [s|[|]| |[|] m e].
Qed.

Lemma nonneg_div (x y : float) :
  nonneg_finite x -> (0 <? y)%float = true -> (0 <=? x / y)%float = true.
Proof.
  unfold nonneg_finite.
  rewrite !nonneg_spec, below_infinity_spec, positive_spec, div_spec.
  intros [Hx Hfin] Hy. pose proof (SFdiv_nonneg _ _ Hx Hy) as H.
  destruct (Prim2SF x) as [sx|[|]| |[|] mx ex]; try discriminate; exact H.
Qed.

Lemma nonneg_add (a b : float) :
  (0 <=? a)%float = true -> (0 <=? b)%float = true -> (0 <=? a + b)%float = true.
Proof. rewrite !nonneg_spec, add_spec. apply SFadd_nonneg. Qed.

Lemma nonneg_mul (m c : float) :
  nonneg_finite m -> nonneg_finite c -> (0 <=? m * c)%float = true.
Proof.
  unfold nonneg_finite. rewrite !nonneg_spec, !below_infinity_spec, mul_spec.
  intros [Hm Hmf] [Hc Hcf]. pose proof (SFmul_nonneg _ _ Hm Hc) as H.
  destruct (Prim2SF m) as [sx|[|]| |[|] mx ex]; try discriminate;
    destruct (Prim2SF c) as [sy|[|]| |[|] my ey]; try discriminate; exact H.
Qed.

Lemma at_most_one_finite (x : float) :
  (x <=? 1)%float = true -> (x <? infinity)%float = true.
Proof.
  rewrite leb_spec, below_infinity_spec.
  change (Prim2SF 1) with (S754_finite false 4503599627370496 (-52)).
  now destruct (Prim2SF x) as [s|[|]| |[|] m e].
Qed.

(** Each partial score is capped: [Math.min(q, 1)] of a quotient that is
    not negative lies between 0 and 1. *)
Lemma Math_min_one (q : float) :
  (0 <=? q)%float = true ->
  (0 <=? Math_min q 1)%float = true /\ (Math_min q 1 <=? 1)%float = true.
Proof.
  intros Hq. pose proof (nonneg_not_nan q Hq) as Hn.
  unfold Math_min. rewrite Hn. change (is_nan 1) with false. cbn [orb].
  destruct (q <? 1)%float eqn:H1.
  - split; [exact Hq | now apply ltb_leb].
  - destruct (1 <? q)%float eqn:H2; [split; reflexivity|].
    assert (Hle : (q <=? 1)%float = true) by now apply not_ltb_leb.
    destruct (get_sign q); split; try assumption; reflexivity.
Qed.

(** The final clamp [Math.max(0.1, Math.min(1.0, score))] of a score
    that is not NaN. *)
Lemma clamp_range (score : float) :
  is_nan score = false ->
  (0.1 <=? Math_max 0.1 (Math_min 1 score))%float = true
  /\ (Math_max 0.1 (Math_min 1 score) <=? 1)%float = true.
Proof.
  intros Hn.
  assert (Hm : is_nan (Math_min 1 score) = false
               /\ (Math_min 1 score <=? 1)%float = true).
  { unfold Math_min. rewrite Hn. change (is_nan 1) with false. cbn [orb].
    destruct (1 <? score)%float eqn:H1; [split; reflexivity|].
    assert (Hle : (score <=? 1)%float = true) by now apply not_ltb_leb.
    destruct (score <? 1)%float; [now split|].
    change (get_sign 1) with false. now split. }
  destruct Hm as [Hmn Hm1]. set (m := Math_min 1 score) in *.
  unfold Math_max. rewrite Hmn. change (is_nan 0.1) with false. cbn [orb].
  destruct (0.1 <? m)%float eqn:H2.
  - split; [now apply ltb_leb | exact Hm1].
  - destruct (m <? 0.1)%float; [split; reflexivity|].
    change (get_sign 0.1) with false. split; reflexivity.
Qed.

Lemma to_number_measured (v : value) :
  numeric_field v -> nonneg_finite (measured v) ->
  nonneg_finite (to_number (js_or v (VNum 0))).
Proof.
  destruct v as [| |b|x|s]; cbn [numeric_field]; intros H Hm; try destruct H;
    try (split; reflexivity).
  unfold js_or, truthy, measured in *.
  destruct (is_zero x); cbn [orb negb to_number]; [split; reflexivity|].
  destruct (is_nan x); cbn [negb to_number]; [split; reflexivity | exact Hm].
Qed.

(** One weighted partial score: [Math.min(v / (t * 2), 1) * weight]. *)
Lemma partial_score_nonneg (v : value) (t weight : float) :
  numeric_field v -> nonneg_finite (measured v) ->
  (0 <? t * 2)%float = true -> nonneg_finite weight ->
  (0 <=? Math_min (to_number (js_or v (VNum 0)) / (t * 2)) 1 * weight)%float = true.
Proof.
  intros Hv Hm Ht Hw.
  pose proof (nonneg_div _ _ (to_number_measured v Hv Hm) Ht) as Hq.
  destruct (Math_min_one _ Hq) as [H0 H1].
  apply nonneg_mul; [split; [exact H0 | now apply at_most_one_finite] | exact Hw].
Qed.

(** The confidence lies in [0.1, 1.0] when the three measures are not
    negative and finite (or missing) and the three doubled thresholds,
    the divisors of the partial scores, are positive. *)
Theorem confidence_in_range (rec : Rec.t) (th : Thresholds) :
  numeric_field (Rec.word_count rec) ->
  numeric_field (Rec.duration_sec rec) ->
  numeric_field (Rec.questions rec) ->
  nonneg_finite (measured (Rec.word_count rec)) ->
  nonneg_finite (measured (Rec.duration_sec rec)) ->
  nonneg_finite (measured (Rec.questions rec)) ->
  (0 <? WORDS_MIN th * 2)%float = true ->
  (0 <? DURATION_MIN_SEC th * 2)%float = true ->
  (0 <? QUESTIONS_MIN th * 2)%float = true ->
  let confidence := Scored.score (scoreActive rec th) in
  (0.1 <=? confidence)%float = true /\ (confidence <=? 1)%float = true.
Proof.
  intros Hw Hd Hq Mw Md Mq Tw Td Tq. cbv zeta. unfold scoreActive. cbn [Scored.score].
  apply clamp_range. apply nonneg_not_nan.
  repeat apply nonneg_add; try reflexivity;
    apply partial_score_nonneg; try assumption; split; reflexivity.
Qed.

(** ** Independence from [speakers] *)

(** C9: the [speakers] argument is accepted and never read: the rows
    returned (or the exception thrown) are the same for any two values
    of it. *)
Theorem speakers_argument_unused (speakers1 speakers2 : list Speaker.t)
  (an : list Analytics.t) (participants : list value) (th : Thresholds) :
  determineAttendance speakers1 an participants th =
  determineAttendance speakers2 an participants th.
Proof. reflexivity. Qed.

(** ** Entries without a key *)

Lemma index_speaker_no_key (m : Map) (s : Analytics.t) :
  norm (Analytics.name s) = Ok "" ->
  norm (Analytics.user_email s) = Ok "" ->
  index_speaker m s = Ok m.
Proof. intros Hn He. unfold index_speaker. rewrite Hn, He. reflexivity. Qed.

Lemma build_index_skip (s : Analytics.t) (before after : list Analytics.t) :
  norm (Analytics.name s) = Ok "" ->
  norm (Analytics.user_email s) = Ok "" ->
  forall m, build_index m (before ++ s :: after) = build_index m (before ++ after).
Proof.
  intros Hn He. induction before as [|s0 before IH]; intros m.
  - cbn [app build_index]. now rewrite (index_speaker_no_key m s Hn He).
  - cbn [app build_index]. destruct (index_speaker m s0) as [m'|e]; cbn [bind].
    + apply IH.
    + reflexivity.
Qed.

(** C10: an analytics entry whose name and e-mail both normalize to the
    empty string is never indexed and never yields a row: removing it,
    wherever it stands in the list, leaves the result unchanged. *)
Theorem keyless_entry_contributes_nothing (speakers : list Speaker.t)
  (s : Analytics.t) (before after : list Analytics.t)
  (participants : list value) (th : Thresholds) :
  norm (Analytics.name s) = Ok "" ->
  norm (Analytics.user_email s) = Ok "" ->
  determineAttendance speakers (before ++ s :: after) participants th =
  determineAttendance speakers (before ++ after) participants th.
Proof.
  intros Hn He. unfold determineAttendance.
  now rewrite (build_index_skip s before after Hn He).
Qed.

(** ** Where the rows come from *)

Lemma distinct_displays_incl (recs : list Rec.t) :
  forall seen r, In r (distinct_displays seen recs) -> In r recs.
Proof.
  induction recs as [|r0 recs IH]; intros seen r Hin; cbn [distinct_displays] in Hin.
  - destruct Hin.
  - destruct (set_has (Rec.display r0) seen).
    + right. exact (IH _ _ Hin).
    + destruct Hin as [<-|Hin]; [now left | right; exact (IH _ _ Hin)].
Qed.

(** Every display value of the sequence is that of an emitted record,
    unless it was seen before. *)
Lemma distinct_displays_covers (recs : list Rec.t) :
  forall seen r,
    In r recs ->
    set_has (Rec.display r) seen = true
    \/ exists r', In r' (distinct_displays seen recs)
                  /\ same_value_zero (Rec.display r) (Rec.display r') = true.
Proof.
  induction recs as [|r0 recs IH]; intros seen r Hin; [destruct Hin|].
  cbn [distinct_displays].
  destruct (set_has (Rec.display r0) seen) eqn:E.
  - destruct Hin as [<-|Hin]; [now left | exact (IH _ _ Hin)].
  - destruct Hin as [<-|Hin].
    + right. exists r0. split; [now left | apply same_value_zero_refl].
    + destruct (IH (seen ++ [Rec.display r0]) r Hin) as [Hs|(r' & Hr' & Hd)].
      * rewrite set_has_app in Hs. apply orb_true_iff in Hs as [Hs|Hs]; [now left|].
        cbn [set_has existsb] in Hs. rewrite orb_false_r in Hs.
        right. exists r0. split; [now left | exact Hs].
      * right. exists r'. split; [now right | exact Hd].
Qed.

Lemma map_set_values (k : string) (v : Rec.t) (m : Map) (r : Rec.t) :
  In r (map snd (map_set k v m)) -> r = v \/ In r (map snd m).
Proof.
  induction m as [|[k' v'] m IH]; cbn [map_set map snd In].
  - intros [<-|[]]. now left.
  - destruct (String.eqb k' k); cbn [map snd In].
    + intros [<-|H]; [now left | right; now right].
    + intros [<-|H]; [right; now left|].
      destruct (IH H) as [->|H']; [now left | right; now right].
Qed.

Lemma set_all_values (ws : Map) :
  forall m r, In r (map snd (set_all ws m)) -> In r (map snd ws) \/ In r (map snd m).
Proof.
  induction ws as [|[k v] ws IH]; intros m r H; cbn [set_all fold_left fst snd] in H.
  - now right.
  - fold (set_all ws (map_set k v m)) in H. cbn [map snd In].
    destruct (IH _ _ H) as [H'|H']; [left; now right|].
    destruct (map_set_values _ _ _ _ H') as [->|H'']; [left; now left | now right].
Qed.

Lemma writes_values (an : list Analytics.t) (r : Rec.t) :
  In r (map snd (writes an)) -> exists s, In s an /\ r = mk_record s.
Proof.
  intros H. apply in_map_iff in H as ([k r'] & <- & H).
  unfold writes in H. apply in_flat_map in H as (s & Hs & H).
  apply in_map_iff in H as (k' & E & _). injection E as _ <-.
  now exists s.
Qed.

(** The records of the index are those built from the analytics
    entries. *)
Lemma index_values (an : list Analytics.t) (idx : Map) (r : Rec.t) :
  build_index [] an = Ok idx -> In r (map snd idx) ->
  exists s, In s an /\ r = mk_record s.
Proof.
  intros H Hr. apply build_index_writes in H. subst idx.
  destruct (set_all_values _ _ _ Hr) as [H|[]]. now apply writes_values.
Qed.

Lemma map_has_get (k : string) (m : Map) :
  map_has k m = true -> exists r, map_get k m = Some r.
Proof.
  induction m as [|[k' v'] m IH]; cbn [map_has existsb map_get fst]; [discriminate|].
  destruct (String.eqb k' k); cbn [orb]; [now exists v' | exact IH].
Qed.

Lemma map_get_in (k : string) (m : Map) (r : Rec.t) :
  map_get k m = Some r -> In (k, r) m.
Proof.
  induction m as [|[k' v'] m IH]; cbn [map_get]; [discriminate|].
  destruct (String.eqb_spec k' k) as [->|_].
  - intros H. injection H as <-. now left.
  - intros H. right. exact (IH H).
Qed.

Lemma last_write_in (k : string) (ws : Map) (r : Rec.t) :
  last_write k ws = Some r -> In (k, r) ws.
Proof.
  induction ws as [|[k' v'] ws IH]; cbn [last_write]; [discriminate|].
  destruct (last_write k ws) as [r'|].
  - intros H. right. apply IH. exact H.
  - destruct (String.eqb_spec k' k) as [->|_]; [|discriminate].
    intros H. injection H as <-. now left.
Qed.

(** The entry behind an e-mail key of the index. *)
Lemma email_key_entry (an : list Analytics.t) (idx : Map) (k : string) :
  build_index [] an = Ok idx ->
  map_has ("e:" ++ k)%string idx = true ->
  exists s,
    In s an /\ norm (Analytics.user_email s) = Ok k /\ k <> ""
    /\ In (mk_record s) (map snd idx).
Proof.
  intros H Hk. apply build_index_writes in H. subst idx.
  destruct (map_has_get _ _ Hk) as (r & Hr).
  pose proof (map_get_in _ _ _ Hr) as Hin.
  rewrite map_get_set_all in Hr.
  destruct (last_write ("e:" ++ k)%string (writes an)) as [r'|] eqn:E; [|discriminate].
  injection Hr as ->. apply last_write_in in E.
  unfold writes in E. apply in_flat_map in E as (s & Hs & E).
  apply in_map_iff in E as (k' & E & Hk').
  injection E as -> <-. exists s. split; [exact Hs|].
  split; [|split; [|apply in_map_iff; now exists (("e:" ++ k)%string, mk_record s)]].
  - unfold entry_keys in Hk'.
    destruct (norm (Analytics.name s)) as [kn|]; [|destruct Hk'].
    destruct (norm (Analytics.user_email s)) as [ke|]; [|destruct Hk'].
    apply in_app_or in Hk' as [Hk'|Hk'].
    + destruct (negb (String.eqb kn "")); [|destruct Hk'].
      destruct Hk' as [Hk'|[]]. discriminate Hk'.
    + destruct (negb (String.eqb ke "")); [|destruct Hk'].
      destruct Hk' as [Hk'|[]]. cbn in Hk'. injection Hk' as Hk'. now subst.
  - unfold entry_keys in Hk'.
    destruct (norm (Analytics.name s)) as [kn|]; [|destruct Hk'].
    destruct (norm (Analytics.user_email s)) as [ke|]; [|destruct Hk'].
    apply in_app_or in Hk' as [Hk'|Hk'].
    + destruct (negb (String.eqb kn "")); [|destruct Hk'].
      destruct Hk' as [Hk'|[]]. discriminate Hk'.
    + destruct (String.eqb_spec ke "") as [E|Hne]; cbn [negb] in Hk'; [destruct Hk'|].
      destruct Hk' as [Hk'|[]]. cbn in Hk'. injection Hk' as Hk'. now subst.
Qed.

(** Every row of the resolver has a source: it is the row of an
    analytics entry, attended exactly when that entry is active, or the
    row of a listed participant, never attended. *)
Theorem every_row_has_a_source (speakers : list Speaker.t) (an : list Analytics.t)
  (participants : list value) (th : Thresholds) (out : list OutRow.t) (p : OutRow.t) :
  determineAttendance speakers an participants th = Ok out ->
  In p out ->
  (exists s,
     In s an /\ p = analytics_row th (mk_record s)
     /\ OutRow.attended p = isActive (mk_record s) th)
  \/ (exists email,
        In email participants /\ p = participant_row email
        /\ OutRow.attended p = false).
Proof.
  intros H Hp. apply determineAttendance_ok in H as (idx & Hidx & -> & _).
  apply in_app_or in Hp as [Hp|Hp]; apply in_map_iff in Hp as (x & <- & Hx).
  - left. apply distinct_displays_incl in Hx.
    destruct (index_values an idx x Hidx Hx) as (s & Hs & ->).
    exists s. repeat split. exact Hs.
  - right. exists x. repeat split.
    unfold unmatched in Hx. now apply filter_In in Hx.
Qed.

(** Every listed participant is accounted for: by a row of their own,
    or, when an analytics entry has the same normalized e-mail, by a row
    for the display name of that entry. *)
Theorem every_participant_is_accounted_for (speakers : list Speaker.t)
  (an : list Analytics.t) (participants : list value) (th : Thresholds)
  (out : list OutRow.t) (email : value) :
  determineAttendance speakers an participants th = Ok out ->
  In email participants ->
  In (participant_row email) out
  \/ (exists s p,
        In s an
        /\ norm (Analytics.user_email s) = norm email
        /\ norm email <> Ok ""
        /\ In p out
        /\ same_value_zero (Rec.display (mk_record s)) (OutRow.person p) = true).
Proof.
  intros H He. apply determineAttendance_ok in H as (idx & Hidx & -> & HF).
  rewrite Forall_forall in HF. destruct (HF _ He) as (k & Hk).
  destruct (map_has ("e:" ++ k)%string idx) eqn:Hhas.
  - right. destruct (email_key_entry an idx k Hidx Hhas) as (s & Hs & Hn & Hne & Hr).
    destruct (distinct_displays_covers _ [] _ Hr) as [Hseen|(r' & Hr' & Hd)];
      [discriminate Hseen|].
    exists s, (analytics_row th r'). split; [exact Hs|].
    split; [now rewrite Hk|]. split; [rewrite Hk; congruence|].
    split; [|exact Hd].
    apply in_or_app. left. now apply in_map.
  - left. apply in_or_app. right. apply in_map.
    unfold unmatched. apply filter_In. split; [exact He|].
    now rewrite Hk, Hhas.
Qed.

(** ** A reason for every attended row *)




(** ** The webhook handler *)

Ltac fetch_cases H :=
  unfold fetch, appendToSheet in H;
  repeat match type of H with
         | context [if ?b then _ else _] => destruct b eqn:?
         | context [match ?x with _ => _ end] => destruct x eqn:?
         end.

Ltac fetch_facts :=
  repeat match goal with
         | E : negb _ = false |- _ => apply negb_false_iff in E
         | E : negb _ = true |- _ => apply negb_true_iff in E
         | E : String.eqb _ _ = true |- _ => apply String.eqb_eq in E
         | E : String.eqb _ _ = false |- _ => apply String.eqb_neq in E
         end.

Lemma sheet_values_nil (world : World.t) (transcriptId : value) (t : Transcript.t)
  (byPerson : list OutRow.t) :
  (List.length (sheet_values world transcriptId t byPerson) =? 0)%nat = true <->
  byPerson = [].
Proof.
  unfold sheet_values. rewrite length_map, Nat.eqb_eq.
  destruct byPerson; cbn; split; congruence.
Qed.

(** A request that wrote to the sheet went through every check before. *)
Lemma posted_inv (world : World.t) (request : Request.t) (env : Env.t)
  (calls : list call) (e : ending) (url : string) (values : list (list value)) :
  fetch world request env = (calls, e) ->
  In (PostedSheets url values) calls ->
  exists payload t byPerson,
    resolved world request env payload t byPerson
    /\ byPerson <> []
    /\ calls = query_then_write world env payload t byPerson
    /\ url = sheets_url (Env.GOOGLE_API_KEY env) (Env.SHEET_ID env) (rangeA1_of env)
    /\ values = sheet_values world (transcriptId_of payload) t byPerson.
Proof.
  intros H Hin. fetch_cases H; injection H as <- <-; cbn [In app] in Hin;
    try (now destruct Hin); destruct Hin as [Hin|[Hin|[]]]; try discriminate Hin.
  all: fetch_facts.
  all: match goal with
       | E : (List.length (sheet_values _ _ ?t ?rows) =? 0)%nat = false,
         P : Request.json _ = JsonValue ?payload |- _ =>
           exists payload, t, rows
       end.
  all: injection Hin as <- <-.
  all: repeat split; try eassumption; try (eexists; split; eassumption).
  all: intros ->; cbn in *; discriminate.
Qed.

(** The handler calls nothing outside for a request that is not an
    authenticated POST of a payload, other than a ping, that names a
    transcript; its first call is the Fireflies query for that
    transcript with the configured key. *)
Theorem outside_calls_need_authentication (world : World.t) (request : Request.t)
  (env : Env.t) (calls : list call) (e : ending) :
  fetch world request env = (calls, e) ->
  calls <> [] ->
  Request.method request = "POST"
  /\ strict_equal (Request.x_fireflies_secret request) (Env.WEBHOOK_SECRET env) = true
  /\ exists payload,
       Request.json request = JsonValue payload
       /\ strict_equal (Payload.type payload) (VStr "ping") = false
       /\ truthy (transcriptId_of payload) = true
       /\ hd_error calls
          = Some (FetchedFireflies (Env.FIREFLIES_API_KEY env) (transcriptId_of payload)).
Proof.
  intros H Hne. fetch_cases H; injection H as <- <-; try (now destruct Hne).
  all: fetch_facts.
  all: split; [assumption|]; split; [assumption|]; eexists; repeat split; eassumption.
Qed.

(** The sheet is written only by a request that went all the way to the
    resolver and got at least one row from it; the request then made
    exactly two calls, the query and one write of all the rows to the
    configured range. *)
Theorem sheet_write_is_guarded (world : World.t) (request : Request.t) (env : Env.t)
  (calls : list call) (e : ending) (url : string) (values : list (list value)) :
  fetch world request env = (calls, e) ->
  In (PostedSheets url values) calls ->
  exists payload t byPerson,
    resolved world request env payload t byPerson
    /\ byPerson <> []
    /\ calls = query_then_write world env payload t byPerson.
Proof.
  intros H Hin.
  destruct (posted_inv _ _ _ _ _ _ _ H Hin) as (payload & t & byPerson & Hr & Hne & Hc & _).
  now exists payload, t, byPerson.
Qed.

(** A POST answered with the body OK went all the way to the resolver;
    either the resolver gave no row and nothing was written, or the rows
    were written and the Sheets endpoint replied ok. *)
Theorem ok_means_rows_written (world : World.t) (request : Request.t) (env : Env.t)
  (calls : list call) (r : Response.t) :
  fetch world request env = (calls, Responded r) ->
  Request.method request = "POST" ->
  Response.body r = "OK" ->
  exists payload t byPerson,
    resolved world request env payload t byPerson
    /\ ((byPerson = []
         /\ calls = [FetchedFireflies (Env.FIREFLIES_API_KEY env) (transcriptId_of payload)])
        \/ (calls = query_then_write world env payload t byPerson
            /\ exists res,
                 World.sheets world
                   (sheets_url (Env.GOOGLE_API_KEY env) (Env.SHEET_ID env) (rangeA1_of env))
                   (sheet_values world (transcriptId_of payload) t byPerson) = Some res
                 /\ HttpResponse.ok res = true)).
Proof.
  intros H Hpost Hbody. fetch_cases H; inversion H; subst; clear H; fetch_facts;
    try discriminate Hbody; try contradiction.
  all: match goal with
       | E : (List.length (sheet_values _ _ ?t ?rows) =? 0)%nat = _,
         P : Request.json _ = JsonValue ?payload |- _ =>
           exists payload, t, rows
       end.
  all: split; [repeat split; try eassumption; eexists; split; eassumption|].
  - right. split; [reflexivity|].
    destruct (World.sheets world _ _) as [res|]; [|discriminate].
    exists res. split; [reflexivity|].
    destruct (HttpResponse.ok res); [reflexivity | discriminate].
  - left. split; [|reflexivity].
    eapply (proj1 (sheet_values_nil _ _ _ _)). eassumption.
Qed.

(** The handler answers with status 200, 400 or 401 only: 401 exactly to
    a POST whose secret header differs from the configured secret, 400
    exactly to an authenticated POST whose body is no JSON. *)
Theorem error_statuses (world : World.t) (request : Request.t) (env : Env.t)
  (calls : list call) (r : Response.t) :
  fetch world request env = (calls, Responded r) ->
  (Response.status r = 200 \/ Response.status r = 400 \/ Response.status r = 401)
  /\ (Response.status r = 401 <->
      Request.method request = "POST"
      /\ strict_equal (Request.x_fireflies_secret request) (Env.WEBHOOK_SECRET env) = false)
  /\ (Response.status r = 400 <->
      Request.method request = "POST"
      /\ strict_equal (Request.x_fireflies_secret request) (Env.WEBHOOK_SECRET env) = true
      /\ Request.json request = BadJson).
Proof.
  intros H. fetch_cases H; inversion H; subst; clear H; fetch_facts; cbn;
    repeat split; auto; try discriminate; try (intros [? ?]; congruence);
    try (intros (? & ? & ?); congruence).
Qed.

(** A request ends without a response in four ways only, all of them
    after authentication: the body is the JSON value null; the Fireflies
    call rejects; the resolver throws; the write to the sheet rejects or
    is answered with a status that is not ok. Nothing was written in the
    first three. *)
Theorem failure_modes (world : World.t) (request : Request.t) (env : Env.t)
  (calls : list call) (f : failure) :
  fetch world request env = (calls, Failed f) ->
  Request.method request = "POST"
  /\ strict_equal (Request.x_fireflies_secret request) (Env.WEBHOOK_SECRET env) = true
  /\ ((Request.json request = JsonNull /\ f = Uncaught TypeError /\ calls = [])
      \/ exists payload,
           Request.json request = JsonValue payload
           /\ hd_error calls
              = Some (FetchedFireflies (Env.FIREFLIES_API_KEY env) (transcriptId_of payload))
           /\ ((World.fireflies world (Env.FIREFLIES_API_KEY env) (transcriptId_of payload)
                = None
                /\ f = FetchRejected /\ List.length calls = 1%nat)
               \/ (exists ff t e,
                     World.fireflies world (Env.FIREFLIES_API_KEY env)
                       (transcriptId_of payload) = Some ff
                     /\ transcript_of ff = Some t
                     /\ determineAttendance (speakers_of t) (speakerAnalytics_of t)
                          (participants_of t) (thresholds_of_env env) = Throw e
                     /\ f = Uncaught e /\ List.length calls = 1%nat)
               \/ (exists t byPerson,
                     resolved world request env payload t byPerson
                     /\ calls = query_then_write world env payload t byPerson
                     /\ match World.sheets world
                                (sheets_url (Env.GOOGLE_API_KEY env) (Env.SHEET_ID env)
                                   (rangeA1_of env))
                                (sheet_values world (transcriptId_of payload) t byPerson) with
                        | None => f = FetchRejected
                        | Some res =>
                            HttpResponse.ok res = false
                            /\ f = ErrorThrown (append_failed res)
                        end))).
Proof.
  intros H. fetch_cases H; inversion H; subst; clear H; fetch_facts.
  all: split; [assumption|]; split; [assumption|].
  all: try (now left).
  all: right; eexists; (split; [reflexivity|]); (split; [reflexivity|]).
  all: try match goal with
           | E : World.fireflies _ _ _ = None |- _ =>
               left; repeat split; assumption
           | E : determineAttendance _ _ _ _ = Throw _ |- _ =>
               right; left; do 3 eexists; repeat split; eassumption
           end.
  right. right.
  do 2 eexists. split; [repeat split; try eassumption; eexists; split; eassumption|].
  split; [reflexivity|].
  destruct (World.sheets world _ _) as [res|].
  - destruct (HttpResponse.ok res); cbn in *; [discriminate|].
    match goal with E' : Some _ = Some _ |- _ => injection E' as <- end. now split.
  - match goal with E' : Some _ = Some _ |- _ => now injection E' as <- end.
Qed.

(** ** The cells of a written row *)









(** ** A meeting without analytics *)

Lemma determineAttendance_no_analytics (speakers : list Speaker.t)
  (participants : list value) (th : Thresholds) :
  Forall string_field participants ->
  determineAttendance speakers [] participants th = Ok (map participant_row participants).
Proof.
  intros Hps.
  assert (HF : Forall (fun email => exists k, norm email = Ok k) participants).
  { eapply Forall_impl; [|exact Hps]. exact norm_string_field. }
  rewrite (determineAttendance_eq speakers [] participants th [] eq_refl HF).
  cbn [map snd distinct_displays app]. now rewrite (unmatched_nil_index _ HF).
Qed.

(** An authenticated POST for a transcript that Fireflies returns without
    analytics, with a participant list that is not empty: the handler
    queries Fireflies, then writes one row per listed participant, in
    the order of the list, each marked FALSE with confidence 0.50. *)
Theorem meeting_without_analytics (world : World.t) (request : Request.t) (env : Env.t)
  (payload : Payload.t) (ff : option Reply.t) (t : Transcript.t) :
  Request.method request = "POST" ->
  strict_equal (Request.x_fireflies_secret request) (Env.WEBHOOK_SECRET env) = true ->
  Request.json request = JsonValue payload ->
  strict_equal (Payload.type payload) (VStr "ping") = false ->
  truthy (transcriptId_of payload) = true ->
  World.fireflies world (Env.FIREFLIES_API_KEY env) (transcriptId_of payload) = Some ff ->
  transcript_of ff = Some t ->
  speakerAnalytics_of t = [] ->
  Forall string_field (participants_of t) ->
  participants_of t <> [] ->
  fst (fetch world request env)
  = [ FetchedFireflies (Env.FIREFLIES_API_KEY env) (transcriptId_of payload);
      PostedSheets
        (sheets_url (Env.GOOGLE_API_KEY env) (Env.SHEET_ID env) (rangeA1_of env))
        (map (participant_cells world payload t) (participants_of t)) ].
Proof.
  intros Hpost Hsecret Hjson Hping Hid Hff Ht Han Hps Hne.
  unfold fetch. rewrite Hpost, Hsecret, Hjson, Hping, Hid, Hff, Ht, Han.
  rewrite (determineAttendance_no_analytics _ _ _ Hps).
  cbn [String.eqb Ascii.eqb Bool.eqb negb].
  unfold sheet_values at 1. rewrite !length_map.
  destruct (participants_of t) as [|email rest] eqn:Hp; [now destruct Hne|].
  cbn [List.length Nat.eqb negb].
  unfold appendToSheet.
  assert (Hv : sheet_values world (transcriptId_of payload) t
                 (map participant_row (email :: rest))
               = map (participant_cells world payload t) (email :: rest)).
  { unfold sheet_values. rewrite map_map. apply map_ext. intros a.
    unfold sheet_row, participant_row, participant_cells.
    cbn [OutRow.person OutRow.attended OutRow.confidence OutRow.reason].
    replace (toFixed 2 0.5) with "0.50" by (vm_compute; reflexivity).
    now destruct (Transcript.duration_seconds t). }
  rewrite Hv.
  destruct (World.sheets world _ _) as [res|]; [destruct (HttpResponse.ok res)|];
    reflexivity.
Qed.

End Heuristics.

(** * The base64url encoding *)

Lemma string_ind3 (P : string -> Prop) :
  P EmptyString ->
  (forall a, P (String a EmptyString)) ->
  (forall a b, P (String a (String b EmptyString))) ->
  (forall a b c rest, P rest -> P (String a (String b (String c rest)))) ->
  forall s, P s.
Proof.
  intros H0 H1 H2 H3.
  assert (H : forall s, P s /\ (forall a, P (String a s))
                        /\ (forall a b, P (String a (String b s)))).
  { induction s as [|c r (IH0 & IH1 & IH2)].
    - repeat split; auto.
    - repeat split; auto. }
  intros s. apply H.
Qed.

Lemma url_char_spec (s : sextet) :
  url_safe (url_char s) = true
  /\ Ascii.eqb (url_char s) "=" = false
  /\ sextet_of (url_char s) = s.
Proof.
  destruct s as [[[[[[|] [|]] [|]] [|]] [|]] [|]]; vm_compute; repeat split; reflexivity.
Qed.

Lemma strip_replace_cons (x : ascii) (rest : string) :
  Ascii.eqb (url_of x) "=" = false ->
  strip_trailing "=" (replace_all "/" "_" (replace_all "+" "-" (String x rest)))
  = String (url_of x)
      (strip_trailing "=" (replace_all "/" "_" (replace_all "+" "-" rest))).
Proof.
  intros H. cbn [replace_all strip_trailing]. fold (url_of x). rewrite H.
  now destruct (strip_trailing "=" _).
Qed.

(** The three replacements turn the output of [btoa] into the unpadded
    encoding. *)
Lemma base64url_unpadded (s : string) :
  strip_trailing "=" (replace_all "/" "_" (replace_all "+" "-" (btoa s)))
  = url_encode s.
Proof.
  induction s as [|a|a b|a b c rest IH] using string_ind3.
  - reflexivity.
  - destruct a as [a0 a1 a2 a3 a4 a5 a6 a7]. cbn [btoa url_encode].
    rewrite !strip_replace_cons by apply url_char_spec. reflexivity.
  - destruct a as [a0 a1 a2 a3 a4 a5 a6 a7], b as [b0 b1 b2 b3 b4 b5 b6 b7].
    cbn [btoa url_encode].
    rewrite !strip_replace_cons by apply url_char_spec. reflexivity.
  - destruct a as [a0 a1 a2 a3 a4 a5 a6 a7], b as [b0 b1 b2 b3 b4 b5 b6 b7],
      c as [c0 c1 c2 c3 c4 c5 c6 c7].
    cbn [btoa url_encode].
    rewrite !strip_replace_cons by apply url_char_spec. now rewrite IH.
Qed.

Lemma url_encode_safe (s : string) : all_units url_safe (url_encode s) = true.
Proof.
  induction s as [|a|a b|a b c rest IH] using string_ind3.
  - reflexivity.
  - destruct a as [a0 a1 a2 a3 a4 a5 a6 a7]. cbn [url_encode all_units].
    now rewrite !(proj1 (url_char_spec _)).
  - destruct a as [a0 a1 a2 a3 a4 a5 a6 a7], b as [b0 b1 b2 b3 b4 b5 b6 b7].
    cbn [url_encode all_units]. now rewrite !(proj1 (url_char_spec _)).
  - destruct a as [a0 a1 a2 a3 a4 a5 a6 a7], b as [b0 b1 b2 b3 b4 b5 b6 b7],
      c as [c0 c1 c2 c3 c4 c5 c6 c7].
    cbn [url_encode all_units]. now rewrite !(proj1 (url_char_spec _)), IH.
Qed.

Lemma url_encode_length (s : string) :
  String.length (url_encode s) = ((4 * String.length s + 2) / 3)%nat.
Proof.
  induction s as [|a|a b|a b c rest IH] using string_ind3.
  - reflexivity.
  - now destruct a.
  - now destruct a, b.
  - destruct a, b, c. cbn [url_encode String.length]. rewrite IH.
    replace (4 * S (S (S (String.length rest))) + 2)%nat
      with ((4 * String.length rest + 2) + 4 * 3)%nat by lia.
    rewrite Nat.div_add by discriminate. lia.
Qed.

Lemma url_decode_encode (s : string) : url_decode (url_encode s) = s.
Proof.
  induction s as [|a|a b|a b c rest IH] using string_ind3.
  - reflexivity.
  - destruct a as [a0 a1 a2 a3 a4 a5 a6 a7]. cbn [url_encode url_decode].
    now rewrite !(proj2 (proj2 (url_char_spec _))).
  - destruct a as [a0 a1 a2 a3 a4 a5 a6 a7], b as [b0 b1 b2 b3 b4 b5 b6 b7].
    cbn [url_encode url_decode]. now rewrite !(proj2 (proj2 (url_char_spec _))).
  - destruct a as [a0 a1 a2 a3 a4 a5 a6 a7], b as [b0 b1 b2 b3 b4 b5 b6 b7],
      c as [c0 c1 c2 c3 c4 c5 c6 c7].
    cbn [url_encode url_decode]. now rewrite !(proj2 (proj2 (url_char_spec _))), IH.
Qed.

Lemma length_string_of_list_byte (l : list Byte.byte) :
  String.length (string_of_list_byte l) = List.length l.
Proof.
  unfold string_of_list_byte. induction l as [|b l IH]; cbn; [reflexivity|].
  now rewrite IH.
Qed.

(** Every character of the result of [base64url] is a letter, a digit,
    [-] or [_]: it holds no [+], [/], [=] and no [.], the separator of
    the three parts of the token. *)
Theorem base64url_alphabet (input : encodable) :
  all_units url_safe (base64url input) = true.
Proof.
  unfold base64url. cbv zeta. rewrite base64url_unpadded. apply url_encode_safe.
Qed.

(** [base64url] gives four characters for every three bytes, rounded
    up. *)
Theorem base64url_length (input : encodable) :
  String.length (base64url input)
  = ((4 * List.length (bytes_of input) + 2) / 3)%nat.
Proof.
  unfold base64url. cbv zeta.
  now rewrite base64url_unpadded, url_encode_length, length_string_of_list_byte.
Qed.

(** [base64url] loses nothing: two inputs with the same result have the
    same bytes. *)
Theorem base64url_injective (a b : encodable) :
  base64url a = base64url b -> bytes_of a = bytes_of b.
Proof.
  unfold base64url. cbv zeta. rewrite !base64url_unpadded. intros H.
  apply (f_equal url_decode) in H. rewrite !url_decode_encode in H.
  apply (f_equal list_byte_of_string) in H.
  now rewrite !list_byte_of_string_of_list_byte in H.
Qed.

(** * The resolver on concrete inputs *)

(** Witness of C1: all three measures one below the default thresholds. *)
Lemma attended_iff_some_threshold_met_witness :
  isActive not_a_numeric_literal just_under default_thresholds = false.
Proof.
  apply (attended_iff_some_threshold_met not_a_numeric_literal just_under
           default_thresholds I I I).
  repeat split; reflexivity.
Defined.

(** C2: with no analytics entry and the single participant "x@co.com",
    under the default thresholds, the resolver returns one row, and it is
    the row of the participant loop (confidence 0.5, "Present in
    participant list but no speech/activity detected"), not the row of
    the last block (confidence 0.4, "Analytics unavailable; cannot
    confirm activity"). *)
Theorem no_analytics_one_participant
  (number_to_string : float -> string) (string_to_number : string -> float)
  (speakers : list Speaker.t) :
  determineAttendance number_to_string string_to_number speakers []
    [VStr "x@co.com"] default_thresholds
  = Ok [OutRow.mk (VStr "x@co.com") false 0.5
          "Present in participant list but no speech/activity detected"]
  /\ determineAttendance number_to_string string_to_number speakers []
       [VStr "x@co.com"] default_thresholds
     <> Ok [fallback_row (VStr "x@co.com")].
Proof. split; [reflexivity | discriminate]. Qed.

(** C3: the output is empty although the analytics list is not: a
    speaker without name and e-mail gets no row. *)
Theorem anonymous_speaker_dropped
  (number_to_string : float -> string) (string_to_number : string -> float)
  (speakers : list Speaker.t) :
  determineAttendance number_to_string string_to_number speakers
    [anonymous_speaker] [] default_thresholds = Ok []
  /\ [anonymous_speaker] <> [].
Proof. split; [reflexivity | discriminate]. Qed.

(** C4: with a word minimum of 0 and a silent record the score is NaN,
    which lies outside [0.1, 1.0]; the resolver returns it as the
    confidence of the row. *)
Theorem zero_threshold_score_is_nan
  (number_to_string : float -> string) (string_to_number : string -> float) :
  let score :=
    Scored.score (scoreActive number_to_string string_to_number silent no_word_minimum) in
  is_nan score = true
  /\ (0.1 <=? score)%float = false
  /\ (score <=? 1)%float = false
  /\ determineAttendance number_to_string string_to_number [] [silent_speaker] []
       no_word_minimum
     = Ok [OutRow.mk (VStr "Ann") true nan "No detectable speech"].
Proof. repeat split; reflexivity. Qed.

(** Counterexample to C5 as first stated: the third entry takes over the
    key, and so the place, of the first; its row comes before the row of
    the second entry, which precedes it in the analytics list. *)
Lemma rows_not_in_list_order :
  determineAttendance integral_to_string not_a_numeric_literal [] alice_bob_alice []
    default_thresholds = Ok alice_bob_alice_rows
  /\ ~ rows_in_list_order integral_to_string not_a_numeric_literal
         alice_bob_alice [] default_thresholds alice_bob_alice_rows.
Proof.
  split; [reflexivity|].
  intros (ms & qs & Hms & Hqs & _ & Heq).
  inversion Hqs; subst qs. unfold alice_bob_alice in Hms.
  repeat match goal with
         | H : subsequence _ (_ :: _) |- _ => inversion H; clear H; subst
         end;
  match goal with
  | H : subsequence _ [] |- _ => inversion H; clear H; subst
  end; vm_compute in Heq; discriminate Heq.
Qed.

(** Witness of C5 as amended, on the same input. *)
Lemma rows_in_key_insertion_order_witness :
  exists idx,
    map fst idx = first_occurrences [] (map fst (writes alice_bob_alice))
    /\ (forall k, map_get k idx = last_write k (writes alice_bob_alice))
    /\ NoDup (map OutRow.person
                (map (analytics_row integral_to_string not_a_numeric_literal
                        default_thresholds)
                   (distinct_displays [] (map snd idx))))
    /\ alice_bob_alice_rows =
       map (analytics_row integral_to_string not_a_numeric_literal default_thresholds)
         (distinct_displays [] (map snd idx))
       ++ map participant_row (unmatched idx []).
Proof.
  exact (rows_in_key_insertion_order integral_to_string not_a_numeric_literal []
           alice_bob_alice [] default_thresholds alice_bob_alice_rows eq_refl).
Defined.

(** Witness of C6: no analytics and one participant, where a row of the
    last block would be expected. *)
Lemma fallback_rows_only_without_analytics_witness :
  existsb is_fallback_row [participant_row (VStr "x@co.com")] = false.
Proof.
  exact (proj1 (fallback_rows_only_without_analytics integral_to_string
                  not_a_numeric_literal [] [] [VStr "x@co.com"] default_thresholds
                  [participant_row (VStr "x@co.com")] eq_refl)).
Defined.

(** Counterexample to C7 as first stated: the input is well typed and
    the resolver returns, but the malformed word count "abc" is not
    replaced by 0. It is printed in the reason and its numeric
    conversion, NaN, becomes the confidence; with 0 in its place the row
    has confidence 0.1 and the reason "No detectable speech". *)
Lemma malformed_field_not_defaulted :
  well_typed [mumbler] []
  /\ determineAttendance integral_to_string not_a_numeric_literal [] [mumbler] []
       default_thresholds
     = Ok [OutRow.mk (VStr "Bea") false nan "abc words"]
  /\ determineAttendance integral_to_string not_a_numeric_literal []
       (map with_zero_unless_number [mumbler]) [] default_thresholds
     = Ok [OutRow.mk (VStr "Bea") false 0.1 "No detectable speech"]
  /\ ~ malformed_fields_default_to_zero integral_to_string not_a_numeric_literal
         [mumbler] [] default_thresholds.
Proof.
  split; [split; repeat constructor|].
  split; [reflexivity|]. split; [reflexivity|].
  intros (rows & H1 & H2). rewrite <- H1 in H2.
  apply (f_equal (fun r => match r with
                           | Ok (p :: _) => OutRow.reason p
                           | _ => EmptyString
                           end)) in H2.
  vm_compute in H2. discriminate H2.
Qed.

(** Witness of C7 as amended: names, e-mails, counts and a participant
    are missing. *)
Lemma resolver_total_witness :
  exists rows,
    determineAttendance integral_to_string not_a_numeric_literal []
      sparse_analytics sparse_participants default_thresholds = Ok rows
    /\ rows = map (analytics_row integral_to_string not_a_numeric_literal
                     default_thresholds)
                (distinct_displays [] (map snd (set_all (writes sparse_analytics) [])))
              ++ map participant_row
                   (unmatched (set_all (writes sparse_analytics) []) sparse_participants)
    /\ determineAttendance integral_to_string not_a_numeric_literal []
         (map with_defaults sparse_analytics) sparse_participants default_thresholds
       = Ok rows.
Proof.
  apply resolver_total. split; repeat constructor.
Defined.

(** Witness of C8: two invocations, here with different [speakers]. *)
Lemma resolver_deterministic_witness :
  determineAttendance integral_to_string not_a_numeric_literal []
    sparse_analytics sparse_participants default_thresholds
  = determineAttendance integral_to_string not_a_numeric_literal
      [Speaker.mk (VNum 1) (VStr "Cara")]
      sparse_analytics sparse_participants default_thresholds.
Proof.
  apply (resolver_deterministic integral_to_string not_a_numeric_literal
           sparse_analytics sparse_participants default_thresholds);
    apply resolves_determineAttendance.
Defined.

(** Witness of C10: the anonymous speaker between two others. *)
Lemma keyless_entry_contributes_nothing_witness :
  determineAttendance integral_to_string not_a_numeric_literal []
    ([cara] ++ anonymous_speaker :: [dan]) sparse_participants default_thresholds
  = determineAttendance integral_to_string not_a_numeric_literal []
      ([cara] ++ [dan]) sparse_participants default_thresholds.
Proof.
  apply (keyless_entry_contributes_nothing integral_to_string not_a_numeric_literal
           [] anonymous_speaker [cara] [dan] sparse_participants default_thresholds);
    reflexivity.
Defined.

(** Witness of [empty_output_iff]: the anonymous speaker alone. *)
Lemma empty_output_iff_witness :
  @nil OutRow.t = [] <->
  @nil value = []
  /\ Forall (fun s => norm (Analytics.name s) = Ok ""
                      /\ norm (Analytics.user_email s) = Ok "") [anonymous_speaker].
Proof.
  exact (empty_output_iff integral_to_string not_a_numeric_literal []
           [anonymous_speaker] [] default_thresholds [] eq_refl).
Defined.

(** Witness of [no_analytics_rows]. *)
Lemma no_analytics_rows_witness :
  determineAttendance integral_to_string not_a_numeric_literal [] []
    sparse_participants default_thresholds
  = Ok (map participant_row sparse_participants).
Proof.
  apply no_analytics_rows. repeat constructor.
Defined.

(** Witness of [confidence_in_range]: the confidence of a talkative
    speaker under the default thresholds. *)
Lemma confidence_in_range_witness :
  let confidence :=
    Scored.score
      (scoreActive integral_to_string not_a_numeric_literal talkative default_thresholds) in
  (0.1 <=? confidence)%float = true /\ (confidence <=? 1)%float = true.
Proof.
  apply (confidence_in_range integral_to_string not_a_numeric_literal talkative
           default_thresholds); try exact I; try reflexivity; split; reflexivity.
Defined.

(** Witness of [rows_in_list_order_without_shared_keys]. *)
Lemma rows_in_list_order_without_shared_keys_witness :
  rows_in_list_order integral_to_string not_a_numeric_literal
    sparse_analytics sparse_participants default_thresholds
    [ OutRow.mk (VStr "Cara") true 0.2 "2 questions";
      OutRow.mk (VStr "dan@co.com") false 0.1 "No detectable speech";
      participant_row VNull;
      participant_row (VStr "eve@co.com") ].
Proof.
  apply (rows_in_list_order_without_shared_keys integral_to_string
           not_a_numeric_literal [] sparse_analytics sparse_participants
           default_thresholds).
  - reflexivity.
  - vm_compute. repeat constructor; cbn; intuition discriminate.
Defined.

(** Witness of [every_row_has_a_source]: the row of Cara. *)
Lemma every_row_has_a_source_witness :
  (exists s,
     In s sparse_analytics
     /\ OutRow.mk (VStr "Cara") true 0.2 "2 questions"
        = analytics_row integral_to_string not_a_numeric_literal default_thresholds
            (mk_record s)
     /\ true = isActive not_a_numeric_literal (mk_record s) default_thresholds)
  \/ (exists email,
        In email sparse_participants
        /\ OutRow.mk (VStr "Cara") true 0.2 "2 questions" = participant_row email
        /\ true = false).
Proof.
  apply (every_row_has_a_source integral_to_string not_a_numeric_literal []
           sparse_analytics sparse_participants default_thresholds
           [ OutRow.mk (VStr "Cara") true 0.2 "2 questions";
             OutRow.mk (VStr "dan@co.com") false 0.1 "No detectable speech";
             participant_row VNull;
             participant_row (VStr "eve@co.com") ]
           (OutRow.mk (VStr "Cara") true 0.2 "2 questions")).
  - reflexivity.
  - now left.
Defined.

(** Witness of [every_participant_is_accounted_for]: Dan, listed with a
    capital letter, is covered by the row of his analytics entry. *)
Lemma every_participant_is_accounted_for_witness :
  In (participant_row (VStr "Dan@co.com"))
    [ OutRow.mk (VStr "Cara") true 0.2 "2 questions";
      OutRow.mk (VStr "dan@co.com") false 0.1 "No detectable speech";
      participant_row VNull;
      participant_row (VStr "eve@co.com") ]
  \/ (exists s p,
        In s sparse_analytics
        /\ norm (Analytics.user_email s) = norm (VStr "Dan@co.com")
        /\ norm (VStr "Dan@co.com") <> Ok ""
        /\ In p [ OutRow.mk (VStr "Cara") true 0.2 "2 questions";
                  OutRow.mk (VStr "dan@co.com") false 0.1 "No detectable speech";
                  participant_row VNull;
                  participant_row (VStr "eve@co.com") ]
        /\ same_value_zero (Rec.display (mk_record s)) (OutRow.person p) = true).
Proof.
  apply (every_participant_is_accounted_for integral_to_string not_a_numeric_literal
           [] sparse_analytics sparse_participants default_thresholds).
  - reflexivity.
  - now left.
Defined.


(** * The handler on concrete requests *)

(** Witness of [outside_calls_need_authentication]: the example webhook. *)
Lemma outside_calls_need_authentication_witness :
  Request.method example_request = "POST"
  /\ strict_equal (Request.x_fireflies_secret example_request)
       (Env.WEBHOOK_SECRET example_env) = true
  /\ exists payload,
       Request.json example_request = JsonValue payload
       /\ strict_equal (Payload.type payload) (VStr "ping") = false
       /\ truthy (transcriptId_of payload) = true
       /\ hd_error
            (fst (fetch integral_to_string not_a_numeric_literal
                    (example_world analysed_meeting accepted) example_request example_env))
          = Some (FetchedFireflies (Env.FIREFLIES_API_KEY example_env)
                    (transcriptId_of payload)).
Proof.
  apply (outside_calls_need_authentication integral_to_string not_a_numeric_literal
           (example_world analysed_meeting accepted) example_request example_env _ _
           (surjective_pairing _)).
  vm_compute. discriminate.
Defined.

(** Witness of [sheet_write_is_guarded]: the write of the example
    webhook. *)
Lemma sheet_write_is_guarded_witness :
  exists payload t byPerson,
    resolved integral_to_string not_a_numeric_literal
      (example_world analysed_meeting accepted) example_request example_env
      payload t byPerson
    /\ byPerson <> []
    /\ fst (fetch integral_to_string not_a_numeric_literal
              (example_world analysed_meeting accepted) example_request example_env)
       = query_then_write integral_to_string
           (example_world analysed_meeting accepted) example_env payload t byPerson.
Proof.
  apply (sheet_write_is_guarded integral_to_string not_a_numeric_literal
           (example_world analysed_meeting accepted) example_request example_env _ _
           (sheets_url integral_to_string (Env.GOOGLE_API_KEY example_env)
              (Env.SHEET_ID example_env) (rangeA1_of integral_to_string example_env))
           (sheet_values integral_to_string
              (example_world analysed_meeting accepted)
              (transcriptId_of example_payload) analysed_meeting
              [ OutRow.mk (VStr "Cara") true 0.2 "2 questions";
                OutRow.mk (VStr "dan@co.com") false 0.1 "No detectable speech";
                participant_row VNull;
                participant_row (VStr "eve@co.com") ])
           (surjective_pairing _)).
  vm_compute. right. left. reflexivity.
Defined.

(** Witness of [ok_means_rows_written]: the example webhook is answered
    OK. *)
Lemma ok_means_rows_written_witness :
  exists payload t byPerson,
    resolved integral_to_string not_a_numeric_literal
      (example_world analysed_meeting accepted) example_request example_env
      payload t byPerson
    /\ ((byPerson = []
         /\ fst (fetch integral_to_string not_a_numeric_literal
                   (example_world analysed_meeting accepted) example_request example_env)
            = [FetchedFireflies (Env.FIREFLIES_API_KEY example_env)
                 (transcriptId_of payload)])
        \/ (fst (fetch integral_to_string not_a_numeric_literal
                   (example_world analysed_meeting accepted) example_request example_env)
            = query_then_write integral_to_string
                (example_world analysed_meeting accepted) example_env payload t byPerson
            /\ exists res,
                 World.sheets (example_world analysed_meeting accepted)
                   (sheets_url integral_to_string (Env.GOOGLE_API_KEY example_env)
                      (Env.SHEET_ID example_env)
                      (rangeA1_of integral_to_string example_env))
                   (sheet_values integral_to_string
                      (example_world analysed_meeting accepted)
                      (transcriptId_of payload) t byPerson) = Some res
                 /\ HttpResponse.ok res = true)).
Proof.
  apply (ok_means_rows_written integral_to_string not_a_numeric_literal
           (example_world analysed_meeting accepted) example_request example_env _
           (plain 200 "OK")).
  - vm_compute. reflexivity.
  - reflexivity.
  - reflexivity.
Defined.

(** Witness of [error_statuses]: the webhook without the secret header
    is answered 401. *)
Lemma error_statuses_witness :
  (401 = 200 \/ 401 = 400 \/ 401 = 401)%nat
  /\ (401%nat = 401%nat <->
      Request.method unsigned_request = "POST"
      /\ strict_equal (Request.x_fireflies_secret unsigned_request)
           (Env.WEBHOOK_SECRET example_env) = false)
  /\ (401%nat = 400%nat <->
      Request.method unsigned_request = "POST"
      /\ strict_equal (Request.x_fireflies_secret unsigned_request)
           (Env.WEBHOOK_SECRET example_env) = true
      /\ Request.json unsigned_request = BadJson).
Proof.
  exact (error_statuses integral_to_string not_a_numeric_literal
           (example_world analysed_meeting accepted) unsigned_request example_env []
           (plain 401 "Unauthorized") eq_refl).
Defined.

(** Witness of [failure_modes]: the Sheets endpoint refuses the write. *)
Lemma failure_modes_witness :
  Request.method example_request = "POST"
  /\ strict_equal (Request.x_fireflies_secret example_request)
       (Env.WEBHOOK_SECRET example_env) = true
  /\ ((Request.json example_request = JsonNull
       /\ ErrorThrown "Sheets append failed: 403 PERMISSION_DENIED" = Uncaught TypeError
       /\ fst (fetch integral_to_string not_a_numeric_literal
                 (example_world analysed_meeting refused) example_request example_env) = [])
      \/ exists payload,
           Request.json example_request = JsonValue payload
           /\ hd_error
                (fst (fetch integral_to_string not_a_numeric_literal
                        (example_world analysed_meeting refused) example_request
                        example_env))
              = Some (FetchedFireflies (Env.FIREFLIES_API_KEY example_env)
                        (transcriptId_of payload))
           /\ ((World.fireflies (example_world analysed_meeting refused)
                  (Env.FIREFLIES_API_KEY example_env) (transcriptId_of payload) = None
                /\ ErrorThrown "Sheets append failed: 403 PERMISSION_DENIED" = FetchRejected
                /\ List.length
                     (fst (fetch integral_to_string not_a_numeric_literal
                             (example_world analysed_meeting refused) example_request
                             example_env)) = 1%nat)
               \/ (exists ff t e,
                     World.fireflies (example_world analysed_meeting refused)
                       (Env.FIREFLIES_API_KEY example_env) (transcriptId_of payload)
                     = Some ff
                     /\ transcript_of ff = Some t
                     /\ determineAttendance integral_to_string not_a_numeric_literal
                          (speakers_of t) (speakerAnalytics_of t) (participants_of t)
                          (thresholds_of_env not_a_numeric_literal example_env) = Throw e
                     /\ ErrorThrown "Sheets append failed: 403 PERMISSION_DENIED"
                        = Uncaught e
                     /\ List.length
                          (fst (fetch integral_to_string not_a_numeric_literal
                                  (example_world analysed_meeting refused) example_request
                                  example_env)) = 1%nat)
               \/ (exists t byPerson,
                     resolved integral_to_string not_a_numeric_literal
                       (example_world analysed_meeting refused) example_request
                       example_env payload t byPerson
                     /\ fst (fetch integral_to_string not_a_numeric_literal
                               (example_world analysed_meeting refused) example_request
                               example_env)
                        = query_then_write integral_to_string
                            (example_world analysed_meeting refused) example_env
                            payload t byPerson
                     /\ match World.sheets (example_world analysed_meeting refused)
                                (sheets_url integral_to_string
                                   (Env.GOOGLE_API_KEY example_env)
                                   (Env.SHEET_ID example_env)
                                   (rangeA1_of integral_to_string example_env))
                                (sheet_values integral_to_string
                                   (example_world analysed_meeting refused)
                                   (transcriptId_of payload) t byPerson) with
                        | None =>
                            ErrorThrown "Sheets append failed: 403 PERMISSION_DENIED"
                            = FetchRejected
                        | Some res =>
                            HttpResponse.ok res = false
                            /\ ErrorThrown "Sheets append failed: 403 PERMISSION_DENIED"
                               = ErrorThrown (append_failed integral_to_string res)
                        end))).
Proof.
  apply (failure_modes integral_to_string not_a_numeric_literal
           (example_world analysed_meeting refused) example_request example_env).
  vm_compute. reflexivity.
Defined.


(** Witness of [meeting_without_analytics]: two participants, two rows. *)
Lemma meeting_without_analytics_witness :
  fst (fetch integral_to_string not_a_numeric_literal
         (example_world plain_meeting accepted) example_request example_env)
  = [ FetchedFireflies (VStr "ffkey") (VStr "T1");
      PostedSheets
        (sheets_url integral_to_string (Env.GOOGLE_API_KEY example_env)
           (Env.SHEET_ID example_env) (rangeA1_of integral_to_string example_env))
        (map (participant_cells (example_world plain_meeting accepted) example_payload
                plain_meeting)
           (participants_of plain_meeting)) ].
Proof.
  apply (meeting_without_analytics integral_to_string not_a_numeric_literal
           (example_world plain_meeting accepted) example_request example_env
           example_payload (Some (Reply.mk (Some (Data.mk (Some plain_meeting)))))
           plain_meeting); try reflexivity.
  - repeat constructor.
  - discriminate.
Defined.

(** * The encoding on concrete inputs *)

(** Witness of [base64url_injective]: a string and the buffer of its
    bytes. *)
Lemma base64url_injective_witness :
  bytes_of (OfString "hi") = bytes_of (OfBuffer [Byte.x68; Byte.x69]).
Proof.
  apply base64url_injective. reflexivity.
Defined.
